(** * Safety-zone classification and nearby-place aggregation

    A shallow embedding of the geospatial core of the Abhaya application:

    - [NearbySafePlaces], the component: [calculateZoneStatus],
      [searchWithGoogleService], [findNearbyPlaces] and what it renders;
    - [Dashboard], the page: [checkSafetyZone],
      [handleNearestPlacesUpdate], [handleLocationChange];
    - [GoogleMap], the component: [getCurrentLocation];
    - [Haversine]: the three [getDistance] bodies, over the real numbers;
    - [HaversineDouble]: the same bodies on IEEE doubles.

    The aggregation and the classifiers take the distance function as a
    parameter: they only compare and subtract what it returns.

    JavaScript numbers are modelled by [number]: exact rationals extended
    with [Infinity], [-Infinity] and [NaN].  Comparison, subtraction,
    division and truthiness follow ECMAScript on those values; rounding of
    IEEE doubles and the sign of zero are not modelled there.  Where the
    last bit decides, in the comparison of the [getDistance] bodies, the
    bodies are evaluated on binary64 floats. *)

From Stdlib Require Import List String Bool Arith Lia ZArith QArith Qabs Lqa.
From Stdlib Require Import Permutation Sorted.
From Stdlib Require Reals Lra DecimalString PrimFloat.
Import ListNotations.

Set Implicit Arguments.

(* ================================================================== *)
(** ** JavaScript numbers *)

Module JS.

Inductive number : Type :=
| Num (q : Q)
| Infinity
| NegInfinity
| NaN.

Definition isNaN (x : number) : bool :=
  match x with NaN => true | _ => false end.

(** [x < y] *)
Definition lt (x y : number) : bool :=
  match x, y with
  | NaN, _ | _, NaN => false
  | Num a, Num b => negb (Qle_bool b a)
  | Num _, Infinity => true
  | Num _, NegInfinity => false
  | Infinity, _ => false
  | NegInfinity, NegInfinity => false
  | NegInfinity, _ => true
  end.

(** [x <= y] *)
Definition le (x y : number) : bool :=
  match x, y with
  | NaN, _ | _, NaN => false
  | Num a, Num b => Qle_bool a b
  | Num _, Infinity => true
  | Num _, NegInfinity => false
  | Infinity, Infinity => true
  | Infinity, _ => false
  | NegInfinity, _ => true
  end.

(** [x - y] *)
Definition sub (x y : number) : number :=
  match x, y with
  | NaN, _ | _, NaN => NaN
  | Num a, Num b => Num (a - b)
  | Num _, Infinity => NegInfinity
  | Num _, NegInfinity => Infinity
  | Infinity, Infinity => NaN
  | Infinity, _ => Infinity
  | NegInfinity, NegInfinity => NaN
  | NegInfinity, _ => NegInfinity
  end.

(** [x / y]; a zero divisor is read as [+0]. *)
Definition div (x y : number) : number :=
  match x, y with
  | NaN, _ | _, NaN => NaN
  | Num a, Num b =>
      if Qeq_bool b 0 then
        if Qeq_bool a 0 then NaN
        else if Qle_bool 0 a then Infinity else NegInfinity
      else Num (a / b)
  | Num _, _ => Num 0
  | Infinity, Num b => if Qle_bool 0 b then Infinity else NegInfinity
  | NegInfinity, Num b => if Qle_bool 0 b then NegInfinity else Infinity
  | _, _ => NaN
  end.

(** ToBoolean on a number: [0] and [NaN] are falsy. *)
Definition truthy (x : number) : bool :=
  match x with
  | Num q => negb (Qeq_bool q 0)
  | NaN => false
  | _ => true
  end.

(** [x || 0] on an optional number field. *)
Definition or_zero (x : option number) : number :=
  match x with
  | Some v => if truthy v then v else Num 0
  | None => Num 0
  end.

(** ToBoolean on a string: only the empty string is falsy. *)
Definition truthy_string (s : string) : bool :=
  negb (String.eqb s EmptyString).

(** Numbers denoting the same value: rationals up to [Qeq]. *)
Definition same (x y : number) : Prop :=
  match x, y with
  | Num a, Num b => a == b
  | Infinity, Infinity | NegInfinity, NegInfinity | NaN, NaN => True
  | _, _ => False
  end.

End JS.

Import JS.

Declare Scope js_scope.
Delimit Scope js_scope with js.
Notation "x <? y" := (JS.lt x y) : js_scope.
Notation "x <=? y" := (JS.le x y) : js_scope.
Notation "x - y" := (JS.sub x y) : js_scope.
Notation "x / y" := (JS.div x y) : js_scope.

(* ================================================================== *)
(** ** Data model *)

Record LatLng : Type := mkLatLng { lat : number; lng : number }.

Inductive PlaceType : Type := police | hospital | government.

(** [interface SafePlace] of NearbySafePlaces.tsx; the Dashboard receives
    the same objects through [onNearestPlaceUpdate]. *)
Record SafePlace : Type := mkSafePlace {
  id : string;
  name : string;
  type : PlaceType;
  address : string;
  phone : option string;
  distance : option number;
  place_lat : number;
  place_lng : number;
  rating : option number;
  isOpen : option bool
}.

Inductive Zone : Type := unknown | green | orange | red.

(** A place whose distance field holds a non-zero rational. *)
Definition measured (p : SafePlace) : Prop :=
  exists q, distance p = Some (Num q) /\ ~ q == 0.

(* ================================================================== *)
(** ** The Google Places service, as the code uses it *)

Inductive PlacesServiceStatus : Type :=
| OK | ZERO_RESULTS | INVALID_REQUEST | OVER_QUERY_LIMIT
| REQUEST_DENIED | UNKNOWN_ERROR | NOT_FOUND.

Definition status_is_OK (s : PlacesServiceStatus) : bool :=
  match s with OK => true | _ => false end.

(** The fields of a [google.maps.places.PlaceResult] that are read. *)
Record PlaceResult : Type := mkPlaceResult {
  place_id : string;
  result_name : string;
  vicinity : option string;
  geometry_location : LatLng;
  result_rating : option number;
  open_now : option bool
}.

(** The two arguments a [nearbySearch] callback receives. *)
Record Response : Type := mkResponse {
  results : option (list PlaceResult);
  status : PlacesServiceStatus
}.

(** One dispatched [nearbySearch]: the [searchType.type] its callback
    closes over and the keyword of its request. *)
Record Query : Type := mkQuery {
  query_type : PlaceType;
  keyword : string
}.

Inductive Promise (A : Type) : Type :=
| Resolved (value : A)
| Rejected (reason : string)
| Pending.
Arguments Rejected {A} reason.
Arguments Pending {A}.

(* ================================================================== *)
(** ** Array helpers *)

Section ArrayHelpers.
Context {A : Type}.

(** [Array.prototype.findIndex]; [None] stands for [-1]. *)
Fixpoint findIndexFrom (f : A -> bool) (k : nat) (l : list A) : option nat :=
  match l with
  | [] => None
  | x :: t => if f x then Some k else findIndexFrom f (S k) t
  end.

Definition findIndex (f : A -> bool) (l : list A) : option nat :=
  findIndexFrom f 0 l.

(** [Array.prototype.filter] with the [(element, index)] callback. *)
Fixpoint filterFrom (f : A -> nat -> bool) (k : nat) (l : list A) : list A :=
  match l with
  | [] => []
  | x :: t => if f x k then x :: filterFrom f (S k) t else filterFrom f (S k) t
  end.

Definition filterIndexed (f : A -> nat -> bool) (l : list A) : list A :=
  filterFrom f 0 l.

(** [Array.prototype.sort(comparefn)]: a comparator result that is [NaN]
    counts as [+0]; the sort is stable.  [insert x l] puts [x], which
    preceded the elements of [l] in the array, before the first element
    it does not compare greater than. *)
Variable comparefn : A -> A -> number.

Definition greater (x y : A) : bool := (Num 0 <? comparefn x y)%js.

Fixpoint insert (x : A) (l : list A) : list A :=
  match l with
  | [] => [x]
  | y :: t => if greater x y then y :: insert x t else x :: y :: t
  end.

Fixpoint sort (l : list A) : list A :=
  match l with
  | [] => []
  | x :: t => insert x (sort t)
  end.
End ArrayHelpers.

Definition option_eqb (a : option nat) (k : nat) : bool :=
  match a with Some i => Nat.eqb i k | None => false end.

(* ================================================================== *)
(** ** NearbySafePlaces *)

Module NearbySafePlaces.

Record ZoneStatus : Type := mkZoneStatus {
  zone : Zone;
  nearestDistance : number;
  nearestPlace : option SafePlace
}.

(** The body of the [places.forEach] callback of [calculateZoneStatus],
    acting on the two [let] variables it assigns. *)
Definition scan (acc : number * option SafePlace) (place : SafePlace)
  : number * option SafePlace :=
  match distance place with
  | Some d =>
      if truthy d && (d <? fst acc)%js then (d, Some place) else acc
  | None => acc
  end.

Definition calculateZoneStatus (userLocation : option LatLng)
    (places : list SafePlace) : ZoneStatus :=
  match userLocation, places with
  | None, _ | _, [] => mkZoneStatus unknown (Num 0) None
  | Some _, _ =>
      let (nearestDistance, nearestPlace) :=
        fold_left scan places (Infinity, None) in
      let distanceInKm := (nearestDistance / Num 1000)%js in
      if (distanceInKm <=? Num 1)%js then
        mkZoneStatus green distanceInKm nearestPlace
      else if (distanceInKm <=? Num 5)%js then
        mkZoneStatus orange distanceInKm nearestPlace
      else
        mkZoneStatus red distanceInKm nearestPlace
  end.

Record SearchType : Type := mkSearchType {
  searchType_type : PlaceType;
  keywords : list string
}.

Definition searchTypes : list SearchType :=
  [ mkSearchType police ["police station"; "police"];
    mkSearchType hospital ["hospital"; "emergency"; "medical center"];
    mkSearchType government
      ["government office"; "collectorate"; "fire station"] ]%string.

(** [searchTypes.length * searchTypes[0].keywords.length] *)
Definition totalSearches : nat :=
  (List.length searchTypes *
   match nth_error searchTypes 0 with
   | Some first => List.length (keywords first)
   | None => 0
   end)%nat.

(** The requests of the two nested [forEach] loops, in dispatch order. *)
Definition dispatched : list Query :=
  flat_map (fun searchType =>
              map (mkQuery (searchType_type searchType)) (keywords searchType))
           searchTypes.

(** What the promise executor shares with the callbacks. *)
Record SearchState : Type := mkSearchState {
  allPlaces : list SafePlace;
  completedSearches : nat;
  settled : option (list SafePlace)
}.

(** [(a, b) => (a.distance || 0) - (b.distance || 0)] *)
Definition byDistance (a b : SafePlace) : number :=
  (or_zero (distance a) - or_zero (distance b))%js.

(** [allPlaces.filter((place, index, self) =>
      index === self.findIndex(p => p.id === place.id))] *)
Definition uniquePlaces (self : list SafePlace) : list SafePlace :=
  filterIndexed
    (fun place index =>
       option_eqb (findIndex (fun p => String.eqb (id p) (id place)) self) index)
    self.

Section Search.
(** The haversine [getDistance] of the component (see [Haversine]). *)
Variable getDistance : LatLng -> LatLng -> number.

(** The provider: what [service.nearbySearch] hands to the callback of
    the request [{location, radius, keyword}]. *)
Variable nearbySearch : LatLng -> Z -> string -> Response.

Definition toSafePlace (location : LatLng) (ty : PlaceType)
    (place : PlaceResult) : SafePlace :=
  {| id := place_id place;
     name := result_name place;
     type := ty;
     address := match vicinity place with
                | Some v => if truthy_string v then v
                            else "Address not available"%string
                | None => "Address not available"%string
                end;
     phone := None;
     distance := Some (getDistance location (geometry_location place));
     place_lat := lat (geometry_location place);
     place_lng := lng (geometry_location place);
     rating := result_rating place;
     isOpen := open_now place |}.

(** What the callback of [q] pushes onto [allPlaces]. *)
Definition contribution (location : LatLng) (radius : Z) (q : Query)
  : list SafePlace :=
  let response := nearbySearch location radius (keyword q) in
  match results response with
  | Some found =>
      if status_is_OK (status response)
      then map (toSafePlace location (query_type q)) found
      else []
  | None => []
  end.

(** One run of the [nearbySearch] callback. A promise settles once:
    [resolve] on a settled promise has no effect. *)
Definition callback (location : LatLng) (radius : Z)
    (s : SearchState) (q : Query) : SearchState :=
  let completed := S (completedSearches s) in
  let all := allPlaces s ++ contribution location radius q in
  mkSearchState all completed
    (if Nat.eqb completed totalSearches then
       match settled s with
       | Some value => Some value
       | None => Some (sort byDistance (uniquePlaces all))
       end
     else settled s).

(** [searchWithGoogleService location radius], with [window.google]
    present or not and the callbacks run in the order [completion] in
    which the dispatched requests complete. *)
Definition searchWithGoogleService (google : bool) (completion : list Query)
    (location : LatLng) (radius : Z) : Promise (list SafePlace) :=
  if negb google then Rejected "Google Maps not loaded"
  else
    match settled (fold_left (callback location radius) completion
                     (mkSearchState [] 0 None)) with
    | Some value => Resolved value
    | None => Pending
    end.

(** Component state ([useState]). *)
Record State : Type := mkState {
  safePlaces : list SafePlace;
  loading : bool;
  searchRadius : Z;
  error : option string;
  zoneStatus : ZoneStatus
}.

Definition initial : State :=
  mkState [] false 20 None (mkZoneStatus unknown (Num 0) None).

(** What one call of [findNearbyPlaces] leaves behind: the state, the
    argument of [onNearestPlaceUpdate] if it was called, and the radii
    [searchWithGoogleService] was called with. *)
Record Outcome : Type := mkOutcome {
  state : State;
  delivered : option (list SafePlace);
  searched : list Z
}.

(** The world one call runs in. *)
Record Environment : Type := mkEnvironment {
  google : bool;
  completion : Z -> list Query
}.

Definition setLoading (b : bool) (s : State) : State :=
  mkState (safePlaces s) b (searchRadius s) (error s) (zoneStatus s).
Definition setError (e : option string) (s : State) : State :=
  mkState (safePlaces s) (loading s) (searchRadius s) e (zoneStatus s).
Definition setSearchRadius (r : Z) (s : State) : State :=
  mkState (safePlaces s) (loading s) r (error s) (zoneStatus s).
Definition setSafePlaces (l : list SafePlace) (s : State) : State :=
  mkState l (loading s) (searchRadius s) (error s) (zoneStatus s).
Definition setZoneStatus (z : ZoneStatus) (s : State) : State :=
  mkState (safePlaces s) (loading s) (searchRadius s) (error s) z.

(** The [catch] and [finally] blocks. *)
Definition failed (s : State) (calls : list Z) : Outcome :=
  mkOutcome
    (setLoading false
       (setError (Some "Unable to fetch nearby places. Please try again."%string) s))
    None calls.

(** The tail of the [try] block, from [places.slice(0, 8)] on, and the
    [finally] block. *)
Definition succeeded (userLocation : option LatLng) (s : State)
    (places : list SafePlace) (calls : list Z) : Outcome :=
  let nearestPlaces := firstn 8 places in
  mkOutcome
    (setLoading false
       (setZoneStatus (calculateZoneStatus userLocation nearestPlaces)
          (setSafePlaces nearestPlaces s)))
    (Some nearestPlaces) calls.

(** [findNearbyPlaces location]; [userLocation] is the prop the component
    closes over.  An [await] on a promise that never settles leaves the
    function suspended. *)
Definition findNearbyPlaces (userLocation : option LatLng)
    (env : Environment) (location : LatLng) (s : State) : Outcome :=
  let s := setError None (setLoading true s) in
  match searchWithGoogleService (google env) (completion env 20000)
          location 20000 with
  | Rejected _ => failed s [20000%Z]
  | Pending => mkOutcome s None [20000%Z]
  | Resolved places =>
      let s := setSearchRadius 20 s in
      match places with
      | [] =>
          match searchWithGoogleService (google env) (completion env 50000)
                  location 50000 with
          | Rejected _ => failed s [20000%Z; 50000%Z]
          | Pending => mkOutcome s None [20000%Z; 50000%Z]
          | Resolved places =>
              succeeded userLocation (setSearchRadius 50 s) places
                [20000%Z; 50000%Z]
          end
      | _ :: _ => succeeded userLocation s places [20000%Z]
      end
  end.

(** What the component renders, by its chain of early returns. *)
Inductive View : Type :=
| AllowLocationCard
| FindingSafePlacesCard
| ErrorCard (message : string) (retryButton : bool)
| PlacesCard (withinKm : Z) (banner : option ZoneStatus)
             (places : list SafePlace).

(** The card of the last [return]: the zone banner is shown unless the
    zone is unknown. *)
Definition placesCard (s : State) : View :=
  PlacesCard (searchRadius s)
    (match zone (zoneStatus s) with
     | unknown => None
     | _ => Some (zoneStatus s)
     end)
    (safePlaces s).

Definition render (userLocation : option LatLng) (s : State) : View :=
  match userLocation with
  | None => AllowLocationCard
  | Some _ =>
      if loading s then FindingSafePlacesCard
      else match error s with
           | Some message =>
               if truthy_string message then ErrorCard message true
               else placesCard s
           | None => placesCard s
           end
  end.
End Search.

End NearbySafePlaces.

(* ================================================================== *)
(** ** Dashboard *)

Module Dashboard.

(** The message templates; the number is what [toFixed(1)] formats and the
    name is [nearestPlace?.name]. *)
Inductive Message : Type :=
| GettingYourLocation
| SearchingForNearbySafePlaces
| SafeGreenZoneNear (placeName : option string)
| OrangeZoneFrom (km : number) (placeName : option string)
| HighRiskRedZoneFrom (km : number) (placeName : option string).

Record ZoneStatus : Type := mkZoneStatus {
  zone : Zone;
  message : Message;
  nearestDistance : number;
  nearestPlace : option SafePlace
}.

Section Classifier.
(** The haversine [getDistance] of the page, in km (see [Haversine]). *)
Variable getDistance : number -> number -> number -> number -> number.

(** [place.distance ? place.distance / 1000 : getDistance(...)] *)
Definition distanceKm (userLoc : LatLng) (place : SafePlace) : number :=
  match distance place with
  | Some d =>
      if truthy d then (d / Num 1000)%js
      else getDistance (lat userLoc) (lng userLoc)
                       (place_lat place) (place_lng place)
  | None => getDistance (lat userLoc) (lng userLoc)
                        (place_lat place) (place_lng place)
  end.

(** The body of the [safePlaces.forEach] callback. *)
Definition scan (userLoc : LatLng) (acc : number * option SafePlace)
    (place : SafePlace) : number * option SafePlace :=
  let d := distanceKm userLoc place in
  if (d <? fst acc)%js then (d, Some place) else acc.

Definition checkSafetyZone (userLoc : option LatLng)
    (safePlaces : list SafePlace) : ZoneStatus :=
  match userLoc, safePlaces with
  | None, _ | _, [] =>
      mkZoneStatus unknown SearchingForNearbySafePlaces (Num 0) None
  | Some loc, _ =>
      let (nearestDistance, nearestPlace) :=
        fold_left (scan loc) safePlaces (Infinity, None) in
      if (nearestDistance <=? Num 1)%js then
        mkZoneStatus green (SafeGreenZoneNear (option_map name nearestPlace))
          nearestDistance nearestPlace
      else if (nearestDistance <=? Num 5)%js then
        mkZoneStatus orange
          (OrangeZoneFrom nearestDistance (option_map name nearestPlace))
          nearestDistance nearestPlace
      else
        mkZoneStatus red
          (HighRiskRedZoneFrom nearestDistance (option_map name nearestPlace))
          nearestDistance nearestPlace
  end.

(** Page state ([useState]), as far as the zone display goes. *)
Record State : Type := mkState {
  userLocation : option LatLng;
  nearestSafePlaces : list SafePlace;
  zoneStatus : ZoneStatus
}.

Definition initial : State :=
  mkState None [] (mkZoneStatus unknown GettingYourLocation (Num 0) None).

Definition handleNearestPlacesUpdate (s : State) (places : list SafePlace)
  : State :=
  match userLocation s, places with
  | Some loc, _ :: _ =>
      mkState (userLocation s) places (checkSafetyZone (Some loc) places)
  | _, _ => mkState (userLocation s) places (zoneStatus s)
  end.

Definition handleLocationChange (s : State) (location : LatLng) : State :=
  match nearestSafePlaces s with
  | _ :: _ =>
      mkState (Some location) (nearestSafePlaces s)
        (checkSafetyZone (Some location) (nearestSafePlaces s))
  | [] => mkState (Some location) (nearestSafePlaces s) (zoneStatus s)
  end.

(** The two ways an input of the classifier reaches the page. *)
Inductive Update : Type :=
| NearestPlaces (places : list SafePlace)
| LocationChange (location : LatLng).

Definition handle (s : State) (u : Update) : State :=
  match u with
  | NearestPlaces places => handleNearestPlacesUpdate s places
  | LocationChange location => handleLocationChange s location
  end.

Definition run (updates : list Update) : State :=
  fold_left handle updates initial.
End Classifier.

End Dashboard.

(* ================================================================== *)
(** ** GoogleMap *)

Module GoogleMap.

(** The default of the [center] prop. *)
Definition defaultCenter : LatLng :=
  mkLatLng (Num (286139 # 10000)) (Num (772090 # 10000)).

(** What [navigator.geolocation] does with [getCurrentPosition]. *)
Inductive Geolocation : Type :=
| Unsupported
| Position (latitude longitude : number)
| PositionError.

Record State : Type := mkState {
  currentLocation : option LatLng;
  isLoading : bool;
  needsLocationPermission : bool
}.

Definition initial : State := mkState None false true.

(** [getCurrentLocation]: the state it leaves and the argument it calls
    [onLocationChange] with. *)
Definition getCurrentLocation (center : LatLng) (geolocation : Geolocation)
    (s : State) : State * LatLng :=
  match geolocation with
  | Position latitude longitude =>
      let location := mkLatLng latitude longitude in
      (mkState (Some location) false false, location)
  | PositionError => (mkState (Some center) false false, center)
  | Unsupported => (mkState (Some center) false false, center)
  end.

End GoogleMap.

(** The page mounts [<GoogleMap onLocationChange={handleLocationChange}/>]
    with no [center] prop: the location the map reports is handled by the
    page. *)
Definition locate (getDistance : number -> number -> number -> number -> number)
    (geolocation : GoogleMap.Geolocation) (s : Dashboard.State) : Dashboard.State :=
  Dashboard.handleLocationChange getDistance s
    (snd (GoogleMap.getCurrentLocation GoogleMap.defaultCenter geolocation
            GoogleMap.initial)).

(* ================================================================== *)
(** ** The three haversine bodies, over the real numbers *)

Module Haversine.
Import Reals.
Local Open Scope R_scope.

Record Pos : Type := mkPos { lat : R; lng : R }.

(** [Math.atan2(y, x)] on real arguments. *)
Definition atan2 (y x : R) : R :=
  if Rlt_dec 0 x then atan (y / x)
  else if Rlt_dec x 0 then
    if Rle_dec 0 y then atan (y / x) + PI else atan (y / x) - PI
  else if Rlt_dec 0 y then PI / 2
  else if Rlt_dec y 0 then - (PI / 2)
  else 0.

Module NearbySafePlaces.
Definition getDistance (pos1 pos2 : Pos) : R :=
  let R := 6371000 in
  let phi1 := lat pos1 * PI / 180 in
  let phi2 := lat pos2 * PI / 180 in
  let dphi := (lat pos2 - lat pos1) * PI / 180 in
  let dlambda := (lng pos2 - lng pos1) * PI / 180 in
  let a := sin (dphi / 2) * sin (dphi / 2) +
           cos phi1 * cos phi2 *
           sin (dlambda / 2) * sin (dlambda / 2) in
  let c := 2 * atan2 (sqrt a) (sqrt (1 - a)) in
  R * c.
End NearbySafePlaces.

Module GoogleMap.
Definition getDistance (pos1 pos2 : Pos) : R :=
  let R := 6371000 in
  let phi1 := lat pos1 * PI / 180 in
  let phi2 := lat pos2 * PI / 180 in
  let dphi := (lat pos2 - lat pos1) * PI / 180 in
  let dlambda := (lng pos2 - lng pos1) * PI / 180 in
  let a := sin (dphi / 2) * sin (dphi / 2) +
           cos phi1 * cos phi2 *
           sin (dlambda / 2) * sin (dlambda / 2) in
  let c := 2 * atan2 (sqrt a) (sqrt (1 - a)) in
  R * c.
End GoogleMap.

Module Dashboard.
Definition toRad (value : R) : R := value * PI / 180.

Definition getDistance (lat1 lon1 lat2 lon2 : R) : R :=
  let R := 6371 in
  let dLat := toRad (lat2 - lat1) in
  let dLon := toRad (lon2 - lon1) in
  let a := sin (dLat / 2) * sin (dLat / 2) +
           cos (toRad lat1) * cos (toRad lat2) *
           sin (dLon / 2) * sin (dLon / 2) in
  let c := 2 * atan2 (sqrt a) (sqrt (1 - a)) in
  R * c.
End Dashboard.

End Haversine.

(* ================================================================== *)
(** ** The three haversine bodies, on doubles *)

Module HaversineDouble.
Import PrimFloat.
Local Open Scope float_scope.

(** The functions of [Math] the bodies call.  ECMAScript leaves their
    results to the engine, so the bodies take them as a parameter; [*],
    [/], [+] and [-] are the operations of IEEE 754 binary64. *)
Record Math : Type := mkMath {
  sin : float -> float;
  cos : float -> float;
  sqrt : float -> float;
  atan2 : float -> float -> float
}.

(** [Math.PI] *)
Definition PI : float := 0x1.921fb54442d18p+1.

Record Pos : Type := mkPos { lat : float; lng : float }.

(** The value of [c] in the three bodies. *)
Definition c (M : Math) (pos1 pos2 : Pos) : float :=
  let phi1 := lat pos1 * PI / 180 in
  let phi2 := lat pos2 * PI / 180 in
  let dphi := (lat pos2 - lat pos1) * PI / 180 in
  let dlambda := (lng pos2 - lng pos1) * PI / 180 in
  let a := sin M (dphi / 2) * sin M (dphi / 2) +
           cos M phi1 * cos M phi2 *
           sin M (dlambda / 2) * sin M (dlambda / 2) in
  2 * atan2 M (sqrt M a) (sqrt M (1 - a)).

Module NearbySafePlaces.
Definition getDistance (M : Math) (pos1 pos2 : Pos) : float :=
  let R := 6371e3 in
  let phi1 := lat pos1 * PI / 180 in
  let phi2 := lat pos2 * PI / 180 in
  let dphi := (lat pos2 - lat pos1) * PI / 180 in
  let dlambda := (lng pos2 - lng pos1) * PI / 180 in
  let a := sin M (dphi / 2) * sin M (dphi / 2) +
           cos M phi1 * cos M phi2 *
           sin M (dlambda / 2) * sin M (dlambda / 2) in
  let c := 2 * atan2 M (sqrt M a) (sqrt M (1 - a)) in
  R * c.
End NearbySafePlaces.

Module GoogleMap.
Definition getDistance (M : Math) (pos1 pos2 : Pos) : float :=
  let R := 6371e3 in
  let phi1 := lat pos1 * PI / 180 in
  let phi2 := lat pos2 * PI / 180 in
  let dphi := (lat pos2 - lat pos1) * PI / 180 in
  let dlambda := (lng pos2 - lng pos1) * PI / 180 in
  let a := sin M (dphi / 2) * sin M (dphi / 2) +
           cos M phi1 * cos M phi2 *
           sin M (dlambda / 2) * sin M (dlambda / 2) in
  let c := 2 * atan2 M (sqrt M a) (sqrt M (1 - a)) in
  R * c.
End GoogleMap.

Module Dashboard.
Definition toRad (value : float) : float := value * PI / 180.

Definition getDistance (M : Math) (lat1 lon1 lat2 lon2 : float) : float :=
  let R := 6371 in
  let dLat := toRad (lat2 - lat1) in
  let dLon := toRad (lon2 - lon1) in
  let a := sin M (dLat / 2) * sin M (dLat / 2) +
           cos M (toRad lat1) * cos M (toRad lat2) *
           sin M (dLon / 2) * sin M (dLon / 2) in
  let c := 2 * atan2 M (sqrt M a) (sqrt M (1 - a)) in
  R * c.
End Dashboard.

End HaversineDouble.

(* ================================================================== *)
(** ** The haversine argument *)

Module HaversineArgument.
Import Reals.
Local Open Scope R_scope.

(** The value of [a], whose square root the three [getDistance] bodies
    take, on coordinates in degrees. *)
Definition a (lat1 lng1 lat2 lng2 : R) : R :=
  sin ((lat2 - lat1) * PI / 180 / 2) * sin ((lat2 - lat1) * PI / 180 / 2) +
  cos (lat1 * PI / 180) * cos (lat2 * PI / 180) *
  sin ((lng2 - lng1) * PI / 180 / 2) * sin ((lng2 - lng1) * PI / 180 / 2).

End HaversineArgument.

(* ================================================================== *)
(** ** GoogleMap: the safe-zone circle *)

Module SafeZoneCircle.

Section Circle.
(** The haversine [getDistance] of the component, in metres. *)
Variable getDistance : LatLng -> LatLng -> number.

(** [safeZones.some(zone =>
      getDistance(currentLocation, {lat: zone.lat, lng: zone.lng}) <= 1000)];
    the page passes its [nearestSafePlaces] as [safeZones]. *)
Definition isInSafeZone (currentLocation : LatLng)
    (safeZones : list SafePlace) : bool :=
  existsb
    (fun zone =>
       (getDistance currentLocation
          (mkLatLng (place_lat zone) (place_lng zone)) <=? Num 1000)%js)
    safeZones.

(** The stroke colour of the circle [initializeMap] draws, if it draws
    one: [if (safeZones.length > 0)]. *)
Definition circle (currentLocation : LatLng) (safeZones : list SafePlace)
  : option string :=
  match safeZones with
  | [] => None
  | _ :: _ =>
      Some (if isInSafeZone currentLocation safeZones
            then "#10B981"%string else "#EF4444"%string)
  end.
End Circle.

End SafeZoneCircle.

(* ================================================================== *)
(** ** The send-broadcast-message function *)

Module SendBroadcastMessage.

Record Contact : Type := mkContact {
  contact_id : string;
  contact_name : string;
  phone : string;
  email : option string;
  relationship : option string
}.

Record BroadcastRequest : Type := mkBroadcastRequest {
  user_id : string;
  subject : string;
  message : string;
  latitude : option number;
  longitude : option number;
  contacts : list Contact
}.

(** The row selected from [profiles]; both columns are nullable. *)
Record Profile : Type := mkProfile {
  first_name : option string;
  last_name : option string
}.

(** What [await req.json()] does. *)
Inductive Json : Type :=
| Invalid (errorMessage : string)
| Valid (request : BroadcastRequest).

(** The argument of [resend.emails.send]. *)
Record Email : Type := mkEmail {
  from : string;
  to : list string;
  email_subject : string;
  text : string;
  html : string
}.

(** What [await resend.emails.send(...)] does: it returns a response, whose
    [data?.id] is read, or throws an error, whose [message] is read. *)
Inductive SendOutcome : Type :=
| Returned (dataId : option string)
| Thrown (errorMessage : option string).

Inductive Status : Type := sent | failed.

Record EmailResult : Type := mkEmailResult {
  result_contact_name : string;
  result_contact_email : option string;
  status : Status;
  message_id : option string;
  error : option string
}.

Record Notification : Type := mkNotification {
  notified_name : string;
  notified_phone : string;
  notified_email : option string;
  notified_message : string;
  sent_at : string;
  email_sent : bool
}.

Inductive Body : Type :=
| Preflight
| Success (description : string) (contacts_notified emails_sent : nat)
          (email_results : list EmailResult)
          (notifications : list Notification)
| Failure (errorMessage : string).

Record HttpResponse : Type := mkHttpResponse {
  http_status : Z;
  body : Body
}.

Definition newline : string := String (Ascii.ascii_of_nat 10) EmptyString.

(** The non-null assertion [contact.email!], erased at run time: on the
    contacts that pass the filter the field is present. *)
Definition nonNull (field : option string) : string :=
  match field with Some value => value | None => "undefined"%string end.

(** A template literal prints [null] for a null column. *)
Definition interpolate (column : option string) : string :=
  match column with Some value => value | None => "null"%string end.

(** ToBoolean on an optional string field. *)
Definition present (field : option string) : bool :=
  match field with Some value => truthy_string value | None => false end.

(** ToBoolean on an optional number field. *)
Definition nonzero (field : option number) : bool :=
  match field with Some value => truthy value | None => false end.

Section Handler.
(** Number::toString and String.prototype.trim. *)
Variable toString : number -> string.
Variable trim : string -> string.
(** The HTML rendition of the user name, the message and the location link,
    stamped with the clock. *)
Variable htmlBody : string -> string -> option string -> string.
(** [new Date().toISOString()] at the [n]-th contact. *)
Variable toISOString : nat -> string.
(** The Resend client. *)
Variable send : Email -> SendOutcome.

Definition userName (profile : option Profile) : string :=
  match profile with
  | Some row =>
      trim (interpolate (first_name row) ++ " " ++ interpolate (last_name row))
  | None => "User"%string
  end.

(** [latitude && longitude ? `https://maps.google.com/maps?q=...` : null] *)
Definition locationUrl (request : BroadcastRequest) : option string :=
  match latitude request, longitude request with
  | Some la, Some lo =>
      if truthy la && truthy lo
      then Some ("https://maps.google.com/maps?q=" ++ toString la ++ ","
                 ++ toString lo)%string
      else None
  | _, _ => None
  end.

Definition emailMessage (profile : option Profile)
    (request : BroadcastRequest) : string :=
  (("Message from " ++ userName profile ++ ":" ++ newline ++ newline
    ++ message request)
   ++ match locationUrl request with
      | Some url =>
          if truthy_string url
          then newline ++ newline ++ "📍 Current Location: " ++ url
          else EmptyString
      | None => EmptyString
      end
   ++ newline ++ newline ++ "Sent via WomenSafe India app")%string.

Definition emailTo (profile : option Profile) (request : BroadcastRequest)
    (address : string) : Email :=
  {| from := "WomenSafe India <noreply@venkatesh7305.me>";
     to := [address];
     email_subject := subject request;
     text := emailMessage profile request;
     html := htmlBody (userName profile) (message request)
               (locationUrl request) |}.

(** The body of the [map] over the contacts that have an address. *)
Definition notify (profile : option Profile) (request : BroadcastRequest)
    (contact : Contact) : EmailResult :=
  match send (emailTo profile request (nonNull (email contact))) with
  | Returned dataId =>
      mkEmailResult (contact_name contact) (email contact) sent dataId None
  | Thrown errorMessage =>
      mkEmailResult (contact_name contact) (email contact) failed None
        errorMessage
  end.

Definition emailResults (profile : option Profile)
    (request : BroadcastRequest) : list EmailResult :=
  map (notify profile request)
    (filter (fun contact => present (email contact)) (contacts request)).

Definition allNotifications (profile : option Profile)
    (request : BroadcastRequest) : list Notification :=
  map (fun numbered =>
         let contact := snd numbered in
         mkNotification (contact_name contact) (phone contact) (email contact)
           (emailMessage profile request) (toISOString (fst numbered))
           (present (email contact)))
      (combine (seq 0 (List.length (contacts request))) (contacts request)).

Definition isSent (r : EmailResult) : bool :=
  match status r with sent => true | failed => false end.

Definition decimal (n : nat) : string :=
  DecimalString.NilZero.string_of_uint (Nat.to_uint n).

(** The handler passed to [serve]. *)
Definition handler (method : string) (json : Json) (profile : option Profile)
  : HttpResponse :=
  if String.eqb method "OPTIONS" then mkHttpResponse 200 Preflight
  else
    match json with
    | Invalid errorMessage =>
        mkHttpResponse 500
          (Failure (if truthy_string errorMessage then errorMessage
                    else "Failed to send broadcast message"%string))
    | Valid request =>
        let results := emailResults profile request in
        mkHttpResponse 200
          (Success
             ("Broadcast sent to "
              ++ decimal (List.length (contacts request)) ++ " contacts")
             (List.length (contacts request))
             (List.length (filter isSent results))
             results
             (allNotifications profile request))
    end.
End Handler.

End SendBroadcastMessage.

(* ================================================================== *)
(** ** Vocabulary of the properties *)

(** [p] carries the same provider identifier as [place]. *)
Definition sameId (place p : SafePlace) : bool := String.eqb (id p) (id place).

(** The specification's deduplication, in its words: keep the first
    occurrence of each identifier; [before] holds the entries met so far. *)
Fixpoint firstOccurrences (before l : list SafePlace) : list SafePlace :=
  match l with
  | [] => []
  | x :: t =>
      if existsb (sameId x) before then firstOccurrences (before ++ [x]) t
      else x :: firstOccurrences (before ++ [x]) t
  end.

(** [distanceMeters[i] <= distanceMeters[j]] for all [i < j]. *)
Definition ascending (l : list SafePlace) : Prop :=
  forall i j pi pj, (i < j)%nat ->
    nth_error l i = Some pi -> nth_error l j = Some pj ->
    exists di dj, distance pi = Some di /\ distance pj = Some dj
                  /\ (di <=? dj)%js = true.

(** Every place carries a distance that is a number. *)
Definition distancesKnown (l : list SafePlace) : Prop :=
  Forall (fun p => exists d, distance p = Some d /\ isNaN d = false) l.

(* ================================================================== *)
(** ** Sample data *)

Module Sample.

(** Connaught Place, New Delhi. *)
Definition here : LatLng :=
  mkLatLng (Num (286315 # 10000)) (Num (772167 # 10000)).

Definition placeAt (ident title : string) (ty : PlaceType)
    (meters : option number) : SafePlace :=
  {| id := ident; name := title; type := ty;
     address := "Address not available"; phone := None;
     distance := meters;
     place_lat := lat here; place_lng := lng here;
     rating := None; isOpen := None |}.

(** A police post standing exactly where the user is. *)
Definition policePost : SafePlace :=
  placeAt "ChIJ-post" "Police Post" police (Some (Num 0)).

Definition clinic : SafePlace :=
  placeAt "ChIJ-clinic" "City Clinic" hospital (Some (Num 3200)).

Definition atMeters (meters : Q) : SafePlace :=
  placeAt "ChIJ-boundary" "Fire Station" government (Some (Num meters)).

(** A stand-in for the haversine distance: metres along the meridian, at
    111 195 m per degree of latitude. *)
Definition meridian (pos1 pos2 : LatLng) : number :=
  match lat pos1, lat pos2 with
  | Num a, Num b => Num (Qabs (b - a) * 111195)
  | _, _ => Infinity
  end.

Definition fireStation : PlaceResult :=
  {| place_id := "ChIJ-fire"; result_name := "Connaught Place Fire Station";
     vicinity := Some "Barakhamba Road"%string;
     geometry_location := mkLatLng (Num (286335 # 10000)) (Num (772250 # 10000));
     result_rating := None; open_now := Some true |}.

(** A provider that knows one place, under the keyword dispatched last. *)
Definition onlyFireStation (location : LatLng) (radius : Z) (kw : string)
  : Response :=
  if String.eqb kw "fire station" then mkResponse (Some [fireStation]) OK
  else mkResponse (Some []) ZERO_RESULTS.

Definition result (ident title : string) (latitude : Q) : PlaceResult :=
  {| place_id := ident; result_name := title; vicinity := None;
     geometry_location := mkLatLng (Num latitude) (Num (772167 # 10000));
     result_rating := None; open_now := None |}.

Definition P1 : PlaceResult :=
  result "P1" "Parliament Street Police Station" (286290 # 10000).
Definition P2 : PlaceResult :=
  result "P2" "Mandir Marg Police Station" (286440 # 10000).
Definition H1 : PlaceResult :=
  result "H1" "Lady Hardinge Hospital" (286270 # 10000).

(** A provider that returns the same station under two keywords. *)
Definition city (location : LatLng) (radius : Z) (kw : string) : Response :=
  if String.eqb kw "police station" then mkResponse (Some [P1]) OK
  else if String.eqb kw "police" then mkResponse (Some [P1; P2]) OK
  else if String.eqb kw "hospital" then mkResponse (Some [H1]) OK
  else mkResponse (Some []) ZERO_RESULTS.

(** A provider that cannot be reached: every request fails. *)
Definition unreachable (location : LatLng) (radius : Z) (kw : string)
  : Response :=
  mkResponse None UNKNOWN_ERROR.

(** The maps library is loaded and requests complete in dispatch order. *)
Definition loaded : NearbySafePlaces.Environment :=
  NearbySafePlaces.mkEnvironment true (fun _ => NearbySafePlaces.dispatched).

(** The maps library is not loaded. *)
Definition notLoaded : NearbySafePlaces.Environment :=
  NearbySafePlaces.mkEnvironment false (fun _ => NearbySafePlaces.dispatched).


(** A provider with nothing within 20 000 m and nine hospitals, 21 to 30 km
    to the north, within 50 000 m. *)
Definition outOfTown (location : LatLng) (radius : Z) (kw : string)
  : Response :=
  if (50000 <=? radius)%Z && String.eqb kw "hospital" then
    mkResponse
      (Some [ result "D5" "Narela Hospital" (288565 # 10000);
              result "D1" "Burari Hospital" (288205 # 10000);
              result "D9" "Sonipat Road Hospital" (288925 # 10000);
              result "D3" "Alipur Hospital" (288385 # 10000);
              result "D7" "Bawana Hospital" (288745 # 10000);
              result "D2" "Mukundpur Hospital" (288295 # 10000);
              result "D8" "Kundli Hospital" (288835 # 10000);
              result "D4" "Bakhtawarpur Hospital" (288475 # 10000);
              result "D6" "Holambi Hospital" (288655 # 10000) ])
      OK
  else mkResponse (Some []) ZERO_RESULTS.

(** The component after an earlier search that found the clinic. *)
Definition showingClinic : NearbySafePlaces.State :=
  NearbySafePlaces.mkState [clinic] false 20 None
    (NearbySafePlaces.calculateZoneStatus (Some here) [clinic]).

(** The sample places carry their distance, so the page never calls its
    own [getDistance] on them; this function stands for it. *)
Definition notCalled : number -> number -> number -> number -> number :=
  fun _ _ _ _ => NaN.

End Sample.

(* ================================================================== *)
(** ** Toasts *)

Record Toast : Type := mkToast {
  title : string;
  description : string;
  destructive : bool
}.

(* ================================================================== *)
(** ** BroadcastMessaging *)

Module BroadcastMessaging.

Record State : Type := mkState {
  isDialogOpen : bool;
  message : string;
  subject : string;
  includeLocation : bool;
  contacts : list SendBroadcastMessage.Contact;
  sending : bool
}.

(** How the promise around [getCurrentPosition] settles; it rejects too
    when [navigator.geolocation] is missing. *)
Inductive Position : Type :=
| Resolves (latitude longitude : number)
| Rejects.

(** The world one call runs in: the signed-in user's id, the position, and
    the [error] that [supabase.functions.invoke] returns for a body. *)
Record Environment : Type := mkEnvironment {
  user : option string;
  position : Position;
  invoke : SendBroadcastMessage.BroadcastRequest -> option string
}.

Record Outcome : Type := mkOutcome {
  state : State;
  toasts : list Toast;
  invoked : list SendBroadcastMessage.BroadcastRequest
}.

Definition setSending (b : bool) (s : State) : State :=
  mkState (isDialogOpen s) (message s) (subject s) (includeLocation s)
    (contacts s) b.

(** The four setters of the success path. *)
Definition reset (s : State) : State :=
  mkState false EmptyString EmptyString false (contacts s) (sending s).

Section Component.
(** Number::toString and String.prototype.trim. *)
Variable toString : number -> string.
Variable trim : string -> string.

(** [finalMessage], [latitude] and [longitude] before the request. *)
Definition located (env : Environment) (s : State)
  : string * option number * option number :=
  if includeLocation s then
    match position env with
    | Resolves latitude longitude =>
        ((message s ++ SendBroadcastMessage.newline
          ++ SendBroadcastMessage.newline
          ++ "📍 My current location: https://maps.google.com/maps?q="
          ++ toString latitude ++ "," ++ toString longitude)%string,
         Some latitude, Some longitude)
    | Rejects =>
        ((message s ++ SendBroadcastMessage.newline
          ++ SendBroadcastMessage.newline
          ++ "📍 Location sharing was requested but unavailable")%string,
         None, None)
    end
  else (message s, None, None).

Definition body (uid : string) (env : Environment) (s : State)
  : SendBroadcastMessage.BroadcastRequest :=
  let '(finalMessage, latitude, longitude) := located env s in
  SendBroadcastMessage.mkBroadcastRequest uid
    (if truthy_string (subject s) then subject s
     else "Message from WomenSafe India"%string)
    finalMessage latitude longitude (contacts s).

Definition handleSendBroadcast (env : Environment) (s : State) : Outcome :=
  if negb (truthy_string (trim (message s))) then
    mkOutcome s [mkToast "Error" "Please enter a message" true] []
  else
    match contacts s with
    | [] => mkOutcome s [mkToast "Error" "No emergency contacts found" true] []
    | _ :: _ =>
        match user env with
        | None => mkOutcome (setSending false (setSending true s)) [] []
        | Some uid =>
            let request := body uid env s in
            match invoke env request with
            | Some _ =>
                mkOutcome (setSending false (setSending true s))
                  [mkToast "Error" "Failed to send broadcast message" true]
                  [request]
            | None =>
                mkOutcome (setSending false (reset (setSending true s)))
                  [mkToast "Message Sent"
                     ("Broadcast sent to "
                      ++ SendBroadcastMessage.decimal
                           (List.length (contacts s))
                      ++ " contacts")
                     false]
                  [request]
            end
        end
    end.
End Component.

(** [supabase.functions.invoke] against the function itself: the [error]
    is set when the status is not a 2xx. *)
Definition errorOf (response : SendBroadcastMessage.HttpResponse)
  : option string :=
  if ((200 <=? SendBroadcastMessage.http_status response)
      && (SendBroadcastMessage.http_status response <? 300))%Z
  then None
  else Some "Edge Function returned a non-2xx status code"%string.

End BroadcastMessaging.

(* ================================================================== *)
(** ** Dashboard: the SOS button *)

Module SOS.

(** What [navigator.geolocation.getCurrentPosition(success, error)] does:
    [navigator.geolocation] may be missing, so that the call throws; no
    options are passed, so that no timeout forces an answer. *)
Inductive Geolocation : Type :=
| Missing
| Position (latitude longitude : number)
| PositionError
| Unanswered.

(** The body handed to [send-emergency-notification]. *)
Record Notification : Type := mkNotification {
  user_id : string;
  latitude : option number;
  longitude : option number;
  message : string
}.

(** What [supabase.functions.invoke] returns: [data], of which
    [contacts_notified] is read, and [error]. *)
Record Invoked : Type := mkInvoked {
  contacts_notified : option (option number);
  error : option string
}.

Record Outcome : Type := mkOutcome {
  invoked : list Notification;
  toasts : list Toast
}.

(** [data?.contacts_notified || 0] *)
Definition notified (response : Invoked) : number :=
  match contacts_notified response with
  | Some count => or_zero count
  | None => Num 0
  end.

Section Page.
Variable toString : number -> string.
Variable invoke : Notification -> Invoked.

Definition handleSOS (user : option string) (geolocation : Geolocation)
  : Outcome :=
  match user with
  | None => mkOutcome [] []
  | Some uid =>
      match geolocation with
      | Missing =>
          mkOutcome []
            [mkToast "Error"
               "Failed to activate SOS. Please call emergency services directly."
               true]
      | Unanswered => mkOutcome [] []
      | Position latitude longitude =>
          let request :=
            mkNotification uid (Some latitude) (Some longitude)
              "Emergency SOS activated! I need immediate help." in
          let response := invoke request in
          match error response with
          | Some _ => mkOutcome [request] []
          | None =>
              mkOutcome [request]
                [mkToast "SOS Activated"
                   ("Emergency alert sent to " ++ toString (notified response)
                    ++ " contacts with your location.")
                   true]
          end
      | PositionError =>
          let request :=
            mkNotification uid None None
              "Emergency SOS activated! I need immediate help. (Location unavailable)" in
          let response := invoke request in
          mkOutcome [request]
            [mkToast "SOS Activated"
               ("Emergency alert sent to " ++ toString (notified response)
                ++ " contacts.")
               true]
      end
  end.
End Page.

End SOS.

(* ================================================================== *)
(** ** More sample data *)

Module Fixture.

(** What the component builds from the city provider's three places. *)
Definition P1 : SafePlace :=
  NearbySafePlaces.toSafePlace Sample.meridian Sample.here police Sample.P1.
Definition H1 : SafePlace :=
  NearbySafePlaces.toSafePlace Sample.meridian Sample.here hospital Sample.H1.
Definition P2 : SafePlace :=
  NearbySafePlaces.toSafePlace Sample.meridian Sample.here police Sample.P2.

(** What the city provider's search at 20 000 m resolves with. *)
Definition cityValue : list SafePlace :=
  match NearbySafePlaces.searchWithGoogleService Sample.meridian Sample.city
          true NearbySafePlaces.dispatched Sample.here 20000 with
  | Resolved value => value
  | _ => []
  end.

Definition asha : SendBroadcastMessage.Contact :=
  SendBroadcastMessage.mkContact "c1" "Asha" "+91-98100-00001"
    (Some "asha@example.org"%string) (Some "sister"%string).
Definition meera : SendBroadcastMessage.Contact :=
  SendBroadcastMessage.mkContact "c2" "Meera" "+91-98100-00002" None None.
Definition kavya : SendBroadcastMessage.Contact :=
  SendBroadcastMessage.mkContact "c3" "Kavya" "+91-98100-00003"
    (Some "kavya@example.org"%string) None.

Definition request : SendBroadcastMessage.BroadcastRequest :=
  SendBroadcastMessage.mkBroadcastRequest "u1" "Reached home" "All fine."
    None None [asha; meera; kavya].

(** Stand-ins for the platform: how the sample coordinates print, [trim]
    on strings that need none, an empty HTML body and a stopped clock. *)
Definition toString (x : number) : string :=
  match x with
  | Num q =>
      if Qeq_bool q (286315 # 10000) then "28.6315"
      else if Qeq_bool q (772167 # 10000) then "77.2167"
      else "0"
  | Infinity => "Infinity"
  | NegInfinity => "-Infinity"
  | NaN => "NaN"
  end.
Definition trim (s : string) : string := s.
Definition htmlBody (user text : string) (url : option string) : string :=
  EmptyString.
Definition toISOString (n : nat) : string := "2025-01-01T00:00:00.000Z".

(** An e-mail service that accepts mail for Asha only. *)
Definition sendToAshaOnly (mail : SendBroadcastMessage.Email)
  : SendBroadcastMessage.SendOutcome :=
  match SendBroadcastMessage.to mail with
  | [address] =>
      if String.eqb address "asha@example.org"
      then SendBroadcastMessage.Returned (Some "msg-1"%string)
      else SendBroadcastMessage.Thrown (Some "rejected"%string)
  | _ => SendBroadcastMessage.Thrown (Some "rejected"%string)
  end.

(** An e-mail service that is down. *)
Definition sendNothing (mail : SendBroadcastMessage.Email)
  : SendBroadcastMessage.SendOutcome :=
  SendBroadcastMessage.Thrown (Some "service unavailable"%string).

(** The form, filled in, with the location box ticked. *)
Definition form : BroadcastMessaging.State :=
  BroadcastMessaging.mkState true "All fine." "Reached home" true
    [asha; meera; kavya] false.

(** A signed-in user at Connaught Place; [invoke] runs the function, whose
    e-mail service is down. *)
Definition online : BroadcastMessaging.Environment :=
  BroadcastMessaging.mkEnvironment (Some "u1"%string)
    (BroadcastMessaging.Resolves (lat Sample.here) (lng Sample.here))
    (fun request =>
       BroadcastMessaging.errorOf
         (SendBroadcastMessage.handler toString trim htmlBody toISOString
            sendNothing "POST" (SendBroadcastMessage.Valid request) None)).

End Fixture.

(* ================================================================== *)
(** ** Sample data on doubles *)

Module DoubleSample.
Import PrimFloat.
Local Open Scope float_scope.
#[local] Set Warnings "-inexact-float".

(** Two emergency contacts of the page: the Delhi Police Control Room,
    which is also the default centre of the map, and AIIMS Hospital. *)
Definition controlRoom : HaversineDouble.Pos :=
  HaversineDouble.mkPos 28.6139 77.2090.
Definition AIIMS : HaversineDouble.Pos :=
  HaversineDouble.mkPos 28.5672 77.2100.

(** A function known at the arguments listed. *)
Definition tabulated (table : list (float * float)) (x : float) : float :=
  match find (fun entry => fst entry =? x) table with
  | Some entry => snd entry
  | None => nan
  end.

(** [Math] at the arguments the bodies evaluate between these two
    positions: for sine, cosine and arc tangent the double nearest to the
    exact value, for the square root the IEEE operation. *)
Definition libm : HaversineDouble.Math :=
  HaversineDouble.mkMath
    (tabulated [ (-0x1.ab54ad5e72fc3p-12, -0x1.ab54ac97fe974p-12);
                 (0x1.24d1521187694p-17, 0x1.24d152117772ep-17) ])
    (tabulated [ (0x1.ff647ccbda950p-2, 0x1.c177c278189b7p-1);
                 (0x1.fe8ed2752b5b7p-2, 0x1.c1aae25535a6cp-1) ])
    PrimFloat.sqrt
    (fun y x =>
       if x =? 0x1.fffffd366bdbap-1
       then tabulated [ (0x1.ab680271f476dp-12, 0x1.ab68033883cd3p-12) ] y
       else nan).

End DoubleSample.

(* ================================================================== *)
(** * Properties *)

(** ** Order facts on [number] *)

Lemma Qlt_bool_iff (a b : Q) : negb (Qle_bool b a) = true <-> a < b.
Proof.
  rewrite negb_true_iff, <- not_true_iff_false, Qle_bool_iff.
  split; [apply Qnot_le_lt | apply Qlt_not_le].
Qed.

Lemma Qlt_bool_false_iff (a b : Q) : negb (Qle_bool b a) = false <-> b <= a.
Proof. now rewrite negb_false_iff, Qle_bool_iff. Qed.

Lemma js_lt_Num (a b : Q) : (Num a <? Num b)%js = true <-> a < b.
Proof. apply Qlt_bool_iff. Qed.

Lemma js_le_Num (a b : Q) : (Num a <=? Num b)%js = true <-> a <= b.
Proof. apply Qle_bool_iff. Qed.

Lemma js_le_trans (x y z : number) :
  (x <=? y)%js = true -> (y <=? z)%js = true -> (x <=? z)%js = true.
Proof.
  destruct x, y, z; simpl; try congruence.
  rewrite !Qle_bool_iff. apply Qle_trans.
Qed.

Lemma js_lt_le (x y : number) : (x <? y)%js = true -> (x <=? y)%js = true.
Proof.
  destruct x, y; simpl; try congruence.
  rewrite Qlt_bool_iff, Qle_bool_iff. apply Qlt_le_weak.
Qed.

Lemma js_not_lt_le (x y : number) :
  isNaN x = false -> isNaN y = false ->
  (x <? y)%js = false -> (y <=? x)%js = true.
Proof.
  destruct x, y; simpl; try congruence.
  now rewrite negb_false_iff.
Qed.

Lemma js_le_same (x x' y y' : number) :
  same x x' -> same y y' -> (x <=? y)%js = (x' <=? y')%js.
Proof.
  destruct x, x', y, y'; simpl; try tauto.
  intros Hx Hy. now rewrite Hx, Hy.
Qed.

Lemma js_div_1000 (q : Q) : (Num q / Num 1000)%js = Num (q / 1000).
Proof. reflexivity. Qed.

Lemma truthy_Num (q : Q) : truthy (Num q) = true <-> ~ q == 0.
Proof.
  simpl. rewrite negb_true_iff, <- not_true_iff_false, Qeq_bool_iff. tauto.
Qed.

(* ================================================================== *)
(** ** The zone classifiers *)

Section ZoneClassifiers.
Variable getDistanceKm : number -> number -> number -> number -> number.

Let checkSafetyZone := Dashboard.checkSafetyZone getDistanceKm.

Lemma calculateZoneStatus_absent (userLocation : option LatLng)
    (places : list SafePlace) :
  userLocation = None \/ places = [] ->
  NearbySafePlaces.calculateZoneStatus userLocation places
  = NearbySafePlaces.mkZoneStatus unknown (Num 0) None.
Proof.
  intros [-> | ->]; [reflexivity | now destruct userLocation].
Qed.

Lemma calculateZoneStatus_present (loc : LatLng) (p : SafePlace)
    (t : list SafePlace) :
  let r := NearbySafePlaces.calculateZoneStatus (Some loc) (p :: t) in
  NearbySafePlaces.zone r = green \/ NearbySafePlaces.zone r = orange
  \/ NearbySafePlaces.zone r = red.
Proof.
  unfold NearbySafePlaces.calculateZoneStatus.
  destruct (fold_left NearbySafePlaces.scan (p :: t) (Infinity, None))
    as [nd np].
  cbv zeta.
  destruct (nd / Num 1000 <=? Num 1)%js; [now left |].
  destruct (nd / Num 1000 <=? Num 5)%js; [now right; left | now right; right].
Qed.

Lemma checkSafetyZone_absent (userLoc : option LatLng)
    (safePlaces : list SafePlace) :
  userLoc = None \/ safePlaces = [] ->
  checkSafetyZone userLoc safePlaces
  = Dashboard.mkZoneStatus unknown Dashboard.SearchingForNearbySafePlaces
      (Num 0) None.
Proof.
  intros [-> | ->]; [reflexivity | now destruct userLoc].
Qed.

Lemma checkSafetyZone_present (loc : LatLng) (p : SafePlace)
    (t : list SafePlace) :
  let r := checkSafetyZone (Some loc) (p :: t) in
  Dashboard.zone r = green \/ Dashboard.zone r = orange
  \/ Dashboard.zone r = red.
Proof.
  unfold checkSafetyZone, Dashboard.checkSafetyZone.
  destruct (fold_left (Dashboard.scan getDistanceKm loc) (p :: t)
              (Infinity, None)) as [nd np].
  cbv zeta.
  destruct (nd <=? Num 1)%js; [now left |].
  destruct (nd <=? Num 5)%js; [now right; left | now right; right].
Qed.

(** C2. Both classifiers, [calculateZoneStatus] of NearbySafePlaces and
    [checkSafetyZone] of the Dashboard, answer zone unknown exactly when
    the place list is empty or the user location is absent, and then with
    nearest distance 0 and no nearest place; with a known location and a
    non-empty list the zone is green, orange or red. *)
Theorem zone_unknown_iff_no_place_or_no_location
    (userLocation : option LatLng) (places : list SafePlace) :
  let r := NearbySafePlaces.calculateZoneStatus userLocation places in
  let d := checkSafetyZone userLocation places in
  (NearbySafePlaces.zone r = unknown <-> userLocation = None \/ places = [])
  /\ (r = NearbySafePlaces.mkZoneStatus unknown (Num 0) None
      <-> userLocation = None \/ places = [])
  /\ (~ (userLocation = None \/ places = []) ->
      NearbySafePlaces.zone r = green \/ NearbySafePlaces.zone r = orange
      \/ NearbySafePlaces.zone r = red)
  /\ (Dashboard.zone d = unknown <-> userLocation = None \/ places = [])
  /\ (Dashboard.zone d = unknown /\ Dashboard.nearestDistance d = Num 0
      /\ Dashboard.nearestPlace d = None
      <-> userLocation = None \/ places = [])
  /\ (~ (userLocation = None \/ places = []) ->
      Dashboard.zone d = green \/ Dashboard.zone d = orange
      \/ Dashboard.zone d = red).
Proof.
  cbv zeta.
  destruct userLocation as [loc |]; [destruct places as [| p t] |].
  - rewrite calculateZoneStatus_absent, checkSafetyZone_absent by now right.
    simpl. intuition.
  - pose proof (calculateZoneStatus_present loc p t) as Hr.
    pose proof (checkSafetyZone_present loc p t) as Hd.
    cbv zeta in Hr, Hd.
    assert (Hn : ~ (Some loc = None \/ p :: t = [])) by (intros [E | E]; discriminate E).
    assert (Hr' : NearbySafePlaces.zone
                    (NearbySafePlaces.calculateZoneStatus (Some loc) (p :: t))
                  <> unknown)
      by (intros E; rewrite E in Hr; destruct Hr as [H | [H | H]]; discriminate H).
    assert (Hd' : Dashboard.zone (checkSafetyZone (Some loc) (p :: t)) <> unknown)
      by (intros E; rewrite E in Hd; destruct Hd as [H | [H | H]]; discriminate H).
    repeat split; try tauto.
    intros E. rewrite E in Hr'. now elim Hr'.
  - rewrite calculateZoneStatus_absent, checkSafetyZone_absent by now left.
    simpl. intuition.
Qed.
(** *** The scan for the nearest place *)

Lemma scan_fold_min (l : list SafePlace) :
  Forall measured l ->
  forall (m : Q) (p0 : SafePlace),
  distance p0 = Some (Num m) ->
  exists p q,
    fold_left NearbySafePlaces.scan l (Num m, Some p0) = (Num q, Some p)
    /\ distance p = Some (Num q) /\ (p = p0 \/ In p l) /\ q <= m
    /\ forall p' q', In p' l -> distance p' = Some (Num q') -> q <= q'.
Proof.
  induction 1 as [| x t [qx [Hx Hnz]] _ IH]; intros m p0 H0.
  - exists p0, m. simpl. repeat split; auto with qarith; try contradiction.
  - simpl. unfold NearbySafePlaces.scan at 2. rewrite Hx.
    apply truthy_Num in Hnz. rewrite Hnz. simpl fst. simpl andb.
    destruct (Qle_bool m qx) eqn:E; simpl negb; cbv iota.
    + apply Qle_bool_iff in E.
      destruct (IH m p0 H0) as (p & q & Hf & Hd & Hin & Hle & Hall).
      exists p, q. repeat split; auto.
      * destruct Hin; auto.
      * intros p' q' [<- | Hp'] Hq'; [| eauto].
        rewrite Hx in Hq'. injection Hq' as <-. lra.
    + apply not_true_iff_false in E. rewrite Qle_bool_iff in E.
      destruct (IH qx x Hx) as (p & q & Hf & Hd & Hin & Hle & Hall).
      exists p, q. repeat split; auto.
      * destruct Hin as [-> | Hin]; auto.
      * lra.
      * intros p' q' [<- | Hp'] Hq'; [| eauto].
        rewrite Hx in Hq'. now injection Hq' as <-.
Qed.

(** With a known location and every distance a non-zero rational,
    [calculateZoneStatus] names a place of least distance and buckets
    that distance, in km. *)
Lemma calculateZoneStatus_nearest (loc : LatLng) (places : list SafePlace) :
  places <> [] -> Forall measured places ->
  let r := NearbySafePlaces.calculateZoneStatus (Some loc) places in
  exists p q,
    In p places /\ distance p = Some (Num q)
    /\ NearbySafePlaces.nearestPlace r = Some p
    /\ NearbySafePlaces.nearestDistance r = Num (q / 1000)
    /\ (forall p' q', In p' places -> distance p' = Some (Num q') -> q <= q')
    /\ NearbySafePlaces.zone r =
         (if Qle_bool (q / 1000) 1 then green
          else if Qle_bool (q / 1000) 5 then orange else red).
Proof.
  destruct places as [| x t]; [congruence |]. intros _ Hall.
  inversion Hall as [| ? ? [qx [Hx Hnz]] Ht]; subst.
  destruct (scan_fold_min Ht x Hx) as (p & q & Hf & Hd & Hin & Hle & Hmin).
  assert (Hfold : fold_left NearbySafePlaces.scan (x :: t) (Infinity, None)
                  = (Num q, Some p)).
  { change (fold_left NearbySafePlaces.scan (x :: t) (Infinity, None))
      with (fold_left NearbySafePlaces.scan t
              (NearbySafePlaces.scan (Infinity, None) x)).
    replace (NearbySafePlaces.scan (Infinity, None) x) with (Num qx, Some x);
      [exact Hf |].
    unfold NearbySafePlaces.scan. rewrite Hx.
    apply truthy_Num in Hnz. now rewrite Hnz. }
  cbv zeta. unfold NearbySafePlaces.calculateZoneStatus.
  rewrite Hfold, js_div_1000.
  exists p, q.
  assert (Hp : In p (x :: t)) by (destruct Hin as [-> | Hin]; [now left | now right]).
  assert (Hq : forall p' q', In p' (x :: t) ->
                 distance p' = Some (Num q') -> q <= q').
  { intros p' q' [<- | Hp'] Hq'; [| eauto].
    rewrite Hx in Hq'. now injection Hq' as <-. }
  change (Num (q / 1000) <=? Num 1)%js with (Qle_bool (q / 1000) 1).
  change (Num (q / 1000) <=? Num 5)%js with (Qle_bool (q / 1000) 5).
  destruct (Qle_bool (q / 1000) 1); [| destruct (Qle_bool (q / 1000) 5)];
    simpl; repeat split; auto.
Qed.

(** Whatever the list, the zone is bucketed from the distance returned. *)
Lemma calculateZoneStatus_bucket (loc : LatLng) (p : SafePlace)
    (t : list SafePlace) :
  let r := NearbySafePlaces.calculateZoneStatus (Some loc) (p :: t) in
  NearbySafePlaces.zone r
  = if (NearbySafePlaces.nearestDistance r <=? Num 1)%js then green
    else if (NearbySafePlaces.nearestDistance r <=? Num 5)%js then orange
    else red.
Proof.
  unfold NearbySafePlaces.calculateZoneStatus.
  destruct (fold_left NearbySafePlaces.scan (p :: t) (Infinity, None))
    as [nd np].
  cbv zeta.
  destruct (nd / Num 1000 <=? Num 1)%js eqn:E1; simpl; [now rewrite E1 |].
  destruct (nd / Num 1000 <=? Num 5)%js eqn:E5; simpl; now rewrite E1, E5.
Qed.

Lemma checkSafetyZone_scan_min (loc : LatLng) (l : list SafePlace) :
  Forall (fun p => exists q, Dashboard.distanceKm getDistanceKm loc p = Num q) l ->
  forall (m : Q) (p0 : SafePlace),
  Dashboard.distanceKm getDistanceKm loc p0 = Num m ->
  exists p q,
    fold_left (Dashboard.scan getDistanceKm loc) l (Num m, Some p0)
    = (Num q, Some p)
    /\ Dashboard.distanceKm getDistanceKm loc p = Num q
    /\ (p = p0 \/ In p l) /\ q <= m
    /\ forall p' q', In p' l ->
         Dashboard.distanceKm getDistanceKm loc p' = Num q' -> q <= q'.
Proof.
  induction 1 as [| x t [qx Hx] _ IH]; intros m p0 H0.
  - exists p0, m. simpl. repeat split; auto with qarith; try contradiction.
  - simpl. unfold Dashboard.scan at 2. rewrite Hx. simpl fst.
    destruct (Qle_bool m qx) eqn:E; simpl JS.lt; rewrite E; simpl negb;
      cbv iota.
    + apply Qle_bool_iff in E.
      destruct (IH m p0 H0) as (p & q & Hf & Hd & Hin & Hle & Hall).
      exists p, q. repeat split; auto.
      * destruct Hin; auto.
      * intros p' q' [<- | Hp'] Hq'; [| eauto].
        rewrite Hx in Hq'. injection Hq' as <-. lra.
    + apply not_true_iff_false in E. rewrite Qle_bool_iff in E.
      destruct (IH qx x Hx) as (p & q & Hf & Hd & Hin & Hle & Hall).
      exists p, q. repeat split; auto.
      * destruct Hin as [-> | Hin]; auto.
      * lra.
      * intros p' q' [<- | Hp'] Hq'; [| eauto].
        rewrite Hx in Hq'. now injection Hq' as <-.
Qed.

(** With a known location and every distance in km a rational,
    [checkSafetyZone] names a place of least distance and buckets it. *)
Lemma checkSafetyZone_nearest (loc : LatLng) (places : list SafePlace) :
  places <> [] ->
  Forall (fun p => exists q, Dashboard.distanceKm getDistanceKm loc p = Num q)
    places ->
  let r := checkSafetyZone (Some loc) places in
  exists p q,
    In p places /\ Dashboard.distanceKm getDistanceKm loc p = Num q
    /\ Dashboard.nearestPlace r = Some p
    /\ Dashboard.nearestDistance r = Num q
    /\ (forall p' q', In p' places ->
          Dashboard.distanceKm getDistanceKm loc p' = Num q' -> q <= q')
    /\ Dashboard.zone r =
         (if Qle_bool q 1 then green
          else if Qle_bool q 5 then orange else red).
Proof.
  destruct places as [| x t]; [congruence |]. intros _ Hall.
  inversion Hall as [| ? ? [qx Hx] Ht]; subst.
  destruct (@checkSafetyZone_scan_min loc t Ht qx x Hx)
    as (p & q & Hf & Hd & Hin & Hle & Hmin).
  assert (Hfold : fold_left (Dashboard.scan getDistanceKm loc) (x :: t)
                    (Infinity, None) = (Num q, Some p)).
  { change (fold_left (Dashboard.scan getDistanceKm loc) (x :: t)
              (Infinity, None))
      with (fold_left (Dashboard.scan getDistanceKm loc) t
              (Dashboard.scan getDistanceKm loc (Infinity, None) x)).
    replace (Dashboard.scan getDistanceKm loc (Infinity, None) x)
      with (Num qx, Some x); [exact Hf |].
    unfold Dashboard.scan. now rewrite Hx. }
  cbv zeta. unfold checkSafetyZone, Dashboard.checkSafetyZone.
  rewrite Hfold.
  exists p, q.
  assert (Hp : In p (x :: t)) by (destruct Hin as [-> | Hin]; [now left | now right]).
  assert (Hq : forall p' q', In p' (x :: t) ->
                 Dashboard.distanceKm getDistanceKm loc p' = Num q' -> q <= q').
  { intros p' q' [<- | Hp'] Hq'; [| eauto].
    rewrite Hx in Hq'. now injection Hq' as <-. }
  change (Num q <=? Num 1)%js with (Qle_bool q 1).
  change (Num q <=? Num 5)%js with (Qle_bool q 5).
  destruct (Qle_bool q 1); [| destruct (Qle_bool q 5)];
    simpl; repeat split; auto.
Qed.

(** The thresholds at the four boundary distances of the specification. *)
Lemma calculateZoneStatus_boundaries :
  let zoneAt meters :=
    NearbySafePlaces.zone
      (NearbySafePlaces.calculateZoneStatus (Some Sample.here)
         [Sample.atMeters meters]) in
  zoneAt 1000 = green /\ zoneAt 1001 = orange
  /\ zoneAt 5000 = orange /\ zoneAt 5001 = red.
Proof. cbv zeta. repeat split; reflexivity. Qed.

(** C3. [calculateZoneStatus] skips a place whose distance is 0: alone in
    the list, the police post at distance 0 leaves the scan at Infinity
    with no nearest place and the zone red; beside a clinic at 3200 m the
    clinic is named nearest and the zone is orange. *)
Theorem calculateZoneStatus_skips_distance_zero :
  NearbySafePlaces.calculateZoneStatus (Some Sample.here) [Sample.policePost]
  = NearbySafePlaces.mkZoneStatus red Infinity None
  /\ NearbySafePlaces.calculateZoneStatus (Some Sample.here)
       [Sample.policePost; Sample.clinic]
     = NearbySafePlaces.mkZoneStatus orange (Num (3200 / 1000))
         (Some Sample.clinic).
Proof. split; reflexivity. Qed.
End ZoneClassifiers.

(* ================================================================== *)
(** ** The Dashboard's stored zone status *)

Section DashboardStatus.
Variable getDistanceKm : number -> number -> number -> number -> number.

Let checkSafetyZone := Dashboard.checkSafetyZone getDistanceKm.
Let handle := Dashboard.handle getDistanceKm.

Lemma handle_inputs (s : Dashboard.State) (u : Dashboard.Update) :
  match u with
  | Dashboard.NearestPlaces places =>
      Dashboard.nearestSafePlaces (handle s u) = places
      /\ Dashboard.userLocation (handle s u) = Dashboard.userLocation s
  | Dashboard.LocationChange location =>
      Dashboard.userLocation (handle s u) = Some location
      /\ Dashboard.nearestSafePlaces (handle s u) = Dashboard.nearestSafePlaces s
  end.
Proof.
  destruct u as [places | location]; simpl.
  - unfold Dashboard.handleNearestPlacesUpdate.
    destruct (Dashboard.userLocation s), places; auto.
  - unfold Dashboard.handleLocationChange.
    destruct (Dashboard.nearestSafePlaces s); auto.
Qed.

(** C7, as the code has it. After either update the page holds the latest
    pair: the delivered place list beside the location it had, or the
    delivered location beside the place list it had. When that pair has a
    known location and a non-empty list, the stored zone status is
    [checkSafetyZone] of the pair; when the list is empty or the location
    still unknown, the stored zone status is the one from before the
    update. *)
Theorem zoneStatus_follows_present_inputs
    (s : Dashboard.State) (u : Dashboard.Update) :
  let s' := handle s u in
  let location :=
    match u with
    | Dashboard.LocationChange delivered => Some delivered
    | Dashboard.NearestPlaces _ => Dashboard.userLocation s
    end in
  let places :=
    match u with
    | Dashboard.NearestPlaces delivered => delivered
    | Dashboard.LocationChange _ => Dashboard.nearestSafePlaces s
    end in
  Dashboard.userLocation s' = location
  /\ Dashboard.nearestSafePlaces s' = places
  /\ (location <> None /\ places <> []
      -> Dashboard.zoneStatus s' = checkSafetyZone location places)
  /\ (location = None \/ places = []
      -> Dashboard.zoneStatus s' = Dashboard.zoneStatus s).
Proof.
  cbv zeta. pose proof (handle_inputs s u) as Hin.
  destruct u as [places | location]; destruct Hin as [H1 H2];
    (split; [assumption |]); (split; [assumption |]);
    clear H1 H2; simpl.
  - unfold Dashboard.handleNearestPlacesUpdate.
    destruct (Dashboard.userLocation s) as [loc |], places as [| p t]; simpl;
      split; intros H; try reflexivity; intuition congruence.
  - unfold Dashboard.handleLocationChange.
    destruct (Dashboard.nearestSafePlaces s) as [| p t]; simpl;
      split; intros H; try reflexivity; intuition congruence.
Qed.

(** C6, as the code has it. When geolocation fails or is not supported,
    [getCurrentLocation] reports the map's [center]; mounted by the page
    without a [center] prop, that is (28.6139, 77.2090), which the page
    stores as the user location and classifies against whenever it holds
    places. *)
Theorem geolocation_failure_reports_center
    (center : LatLng) (g : GoogleMap.State) (s : Dashboard.State) :
  snd (GoogleMap.getCurrentLocation center GoogleMap.PositionError g) = center
  /\ snd (GoogleMap.getCurrentLocation center GoogleMap.Unsupported g) = center
  /\ forall geolocation,
       match geolocation with
       | GoogleMap.Position latitude longitude =>
           Dashboard.userLocation (locate getDistanceKm geolocation s)
           = Some (mkLatLng latitude longitude)
       | _ =>
           let s' := locate getDistanceKm geolocation s in
           Dashboard.userLocation s' = Some GoogleMap.defaultCenter
           /\ (Dashboard.nearestSafePlaces s <> [] ->
               Dashboard.zoneStatus s'
               = checkSafetyZone (Some GoogleMap.defaultCenter)
                   (Dashboard.nearestSafePlaces s))
       end.
Proof.
  split; [reflexivity | split; [reflexivity |]].
  intros geolocation. unfold locate, Dashboard.handleLocationChange.
  destruct geolocation; simpl;
    destruct (Dashboard.nearestSafePlaces s); simpl;
    try reflexivity; split; try reflexivity; intros H; congruence.
Qed.
End DashboardStatus.

(** C7 fails as stated: with the location known and a clinic 3200 m away
    the status is orange; an update that delivers the empty list leaves it
    orange, while the classifier on the latest pair answers unknown. *)
Lemma empty_place_list_keeps_stale_zone :
  let s := Dashboard.run Sample.notCalled
             [Dashboard.LocationChange Sample.here;
              Dashboard.NearestPlaces [Sample.clinic];
              Dashboard.NearestPlaces []] in
  Dashboard.userLocation s = Some Sample.here
  /\ Dashboard.nearestSafePlaces s = []
  /\ Dashboard.zone (Dashboard.zoneStatus s) = orange
  /\ Dashboard.zone
       (Dashboard.checkSafetyZone Sample.notCalled (Dashboard.userLocation s)
          (Dashboard.nearestSafePlaces s)) = unknown
  /\ Dashboard.zoneStatus s
     <> Dashboard.checkSafetyZone Sample.notCalled (Dashboard.userLocation s)
          (Dashboard.nearestSafePlaces s).
Proof. cbv zeta. repeat split; try reflexivity. discriminate. Qed.

(** With the location known, the update that delivers the clinic leaves the
    page holding the clinic beside that location, and the stored status
    equal to the classifier on that pair. *)
Lemma zoneStatus_follows_present_inputs_witness :
  let s := Dashboard.run Sample.notCalled
             [Dashboard.LocationChange Sample.here] in
  let s' := Dashboard.handle Sample.notCalled s
              (Dashboard.NearestPlaces [Sample.clinic]) in
  Dashboard.userLocation s' = Some Sample.here
  /\ Dashboard.nearestSafePlaces s' = [Sample.clinic]
  /\ Dashboard.zoneStatus s'
     = Dashboard.checkSafetyZone Sample.notCalled (Some Sample.here)
         [Sample.clinic].
Proof.
  cbv zeta.
  destruct (zoneStatus_follows_present_inputs Sample.notCalled
              (Dashboard.run Sample.notCalled
                 [Dashboard.LocationChange Sample.here])
              (Dashboard.NearestPlaces [Sample.clinic]))
    as (Hlocation & Hplaces & Hzone & _).
  cbv zeta in Hzone.
  split; [exact Hlocation |]. split; [exact Hplaces |].
  apply Hzone. split; discriminate.
Defined.

(** C6 fails as stated: after a geolocation error the page holds the
    default centre as the user location, not an absent one, and with a
    place 500 m from it the zone is green, not unknown. *)
Lemma geolocation_error_yields_zone_at_default_center :
  let s := Dashboard.handleNearestPlacesUpdate Sample.notCalled
             (locate Sample.notCalled GoogleMap.PositionError
                (Dashboard.initial))
             [Sample.atMeters 500] in
  Dashboard.userLocation s = Some GoogleMap.defaultCenter
  /\ Dashboard.userLocation s <> None
  /\ Dashboard.zone (Dashboard.zoneStatus s) = green
  /\ Dashboard.zone (Dashboard.zoneStatus s) <> unknown
  /\ Dashboard.zoneStatus s
     <> Dashboard.checkSafetyZone Sample.notCalled None [Sample.atMeters 500].
Proof. cbv zeta. repeat split; try reflexivity; discriminate. Qed.

(** Without geolocation support and with a place 500 m away in store, the
    page classifies against the default centre: green. *)
Lemma geolocation_failure_reports_center_witness :
  let s' := locate Sample.notCalled GoogleMap.Unsupported
              (Dashboard.mkState None [Sample.atMeters 500]
                 (Dashboard.zoneStatus Dashboard.initial)) in
  Dashboard.userLocation s' = Some GoogleMap.defaultCenter
  /\ Dashboard.zone (Dashboard.zoneStatus s') = green.
Proof.
  cbv zeta.
  destruct (proj2 (proj2 (geolocation_failure_reports_center Sample.notCalled
                            GoogleMap.defaultCenter GoogleMap.initial
                            (Dashboard.mkState None [Sample.atMeters 500]
                               (Dashboard.zoneStatus Dashboard.initial))))
              GoogleMap.Unsupported) as [Hloc Hzone].
  split; [exact Hloc |].
  cbv zeta in Hzone. rewrite Hzone by discriminate. reflexivity.
Defined.

(* ================================================================== *)
(** ** Deduplication by identifier *)

Section Deduplication.

Lemma sameId_refl (p : SafePlace) : sameId p p = true.
Proof. apply String.eqb_refl. Qed.

Lemma sameId_iff (place p : SafePlace) : sameId place p = true <-> id p = id place.
Proof. apply String.eqb_eq. Qed.

Lemma findIndexFrom_app (f : SafePlace -> bool) (pre l : list SafePlace) :
  forall k,
  findIndexFrom f k (pre ++ l)
  = if existsb f pre then findIndexFrom f k pre
    else findIndexFrom f (k + List.length pre) l.
Proof.
  induction pre as [| y pre IH]; intros k; simpl.
  - now rewrite Nat.add_0_r.
  - destruct (f y); simpl; [reflexivity |].
    rewrite IH. now rewrite Nat.add_succ_r.
Qed.

Lemma findIndexFrom_bound (f : SafePlace -> bool) (l : list SafePlace) :
  forall k i, findIndexFrom f k l = Some i -> (k <= i < k + List.length l)%nat.
Proof.
  induction l as [| y l IH]; intros k i; simpl; [discriminate |].
  destruct (f y).
  - intros [= <-]. lia.
  - intros H. apply IH in H. lia.
Qed.

(** Whether the entry at index [length before] of [before ++ x :: t]
    passes the filter of [uniquePlaces]. *)
Lemma first_index_test (before : list SafePlace) (x : SafePlace)
    (t : list SafePlace) :
  option_eqb (findIndex (sameId x) (before ++ x :: t)) (List.length before)
  = negb (existsb (sameId x) before).
Proof.
  unfold findIndex. rewrite findIndexFrom_app.
  destruct (existsb (sameId x) before) eqn:E; simpl.
  - destruct (findIndexFrom (sameId x) 0 before) as [i |] eqn:F; simpl; auto.
    apply findIndexFrom_bound in F. apply Nat.eqb_neq. lia.
  - rewrite sameId_refl. simpl. apply Nat.eqb_refl.
Qed.

Lemma filterFrom_firstOccurrences (before l : list SafePlace) :
  filterFrom
    (fun place index =>
       option_eqb (findIndex (fun p => String.eqb (id p) (id place))
                     (before ++ l)) index)
    (List.length before) l
  = firstOccurrences before l.
Proof.
  revert before. induction l as [| x t IH]; intros before; simpl; auto.
  change (fun p => String.eqb (id p) (id x)) with (sameId x).
  rewrite first_index_test.
  specialize (IH (before ++ [x])).
  rewrite <- app_assoc, length_app, Nat.add_1_r in IH. simpl in IH.
  rewrite IH. now destruct (existsb (sameId x) before).
Qed.

(** The filter of the code is the specification's deduplication. *)
Lemma uniquePlaces_firstOccurrences (self : list SafePlace) :
  NearbySafePlaces.uniquePlaces self = firstOccurrences [] self.
Proof. apply (filterFrom_firstOccurrences [] self). Qed.

Lemma existsb_sameId (x : SafePlace) (l : list SafePlace) :
  existsb (sameId x) l = true <-> In (id x) (map id l).
Proof.
  rewrite existsb_exists, in_map_iff. split.
  - intros (p & Hp & E). apply sameId_iff in E. eauto.
  - intros (p & E & Hp). exists p. split; auto. now apply sameId_iff.
Qed.

Lemma firstOccurrences_In (l before : list SafePlace) (p : SafePlace) :
  In p (firstOccurrences before l) ->
  In p l /\ ~ In (id p) (map id before).
Proof.
  revert before. induction l as [| x t IH]; intros before; simpl; [tauto |].
  assert (Hrec : In p (firstOccurrences (before ++ [x]) t) ->
                 (x = p \/ In p t) /\ ~ In (id p) (map id before)).
  { intros H. apply IH in H. destruct H as [Ht Hn]. split; auto.
    intros Hb. apply Hn. rewrite map_app, in_app_iff. now left. }
  destruct (existsb (sameId x) before) eqn:E; [exact Hrec |].
  intros [<- | H]; [| now apply Hrec].
  split; [now left |].
  rewrite <- existsb_sameId, E. discriminate.
Qed.

Lemma firstOccurrences_NoDup (l before : list SafePlace) :
  NoDup (map id (firstOccurrences before l)).
Proof.
  revert before. induction l as [| x t IH]; intros before; simpl.
  - constructor.
  - destruct (existsb (sameId x) before); [apply IH |].
    simpl. constructor; [| apply IH].
    rewrite in_map_iff. intros (p & E & Hp).
    apply firstOccurrences_In in Hp. destruct Hp as [_ Hn].
    apply Hn. rewrite map_app, in_app_iff. right. simpl. now left.
Qed.

Lemma sameId_trans (x p q : SafePlace) :
  sameId x p = true -> sameId p q = sameId x q.
Proof.
  unfold sameId. intros E. apply String.eqb_eq in E. now rewrite E.
Qed.

(** The entry kept for an identifier is the first one that carries it. *)
Lemma firstOccurrences_find (place : SafePlace) (l before : list SafePlace) :
  find (sameId place) (firstOccurrences before l)
  = if existsb (sameId place) before then None else find (sameId place) l.
Proof.
  revert before. induction l as [| x t IH]; intros before; simpl.
  - now destruct (existsb (sameId place) before).
  - assert (Hrec : find (sameId place) (firstOccurrences (before ++ [x]) t)
                   = if existsb (sameId place) before || sameId place x
                     then None else find (sameId place) t).
    { rewrite IH, existsb_app. simpl. now rewrite orb_false_r. }
    destruct (existsb (sameId x) before) eqn:E.
    + rewrite Hrec.
      destruct (existsb (sameId place) before) eqn:B; simpl; auto.
      destruct (sameId place x) eqn:S; auto.
      exfalso. apply existsb_exists in E. destruct E as (y & Hy & Ey).
      assert (existsb (sameId place) before = true); [| congruence].
      apply existsb_exists. exists y. split; auto.
      unfold sameId in *. apply String.eqb_eq in S, Ey.
      apply String.eqb_eq. congruence.
    + simpl. rewrite Hrec.
      destruct (sameId place x) eqn:S.
      * destruct (existsb (sameId place) before) eqn:B; auto.
        exfalso. apply existsb_exists in B. destruct B as (y & Hy & Ey).
        assert (existsb (sameId x) before = true); [| congruence].
        apply existsb_exists. exists y. split; auto.
        unfold sameId in *. apply String.eqb_eq in S, Ey.
        apply String.eqb_eq. congruence.
      * now rewrite orb_false_r.
Qed.

Lemma filter_sameId_nil (place : SafePlace) (l : list SafePlace) :
  ~ In (id place) (map id l) -> filter (sameId place) l = [].
Proof.
  induction l as [| x t IH]; simpl; [reflexivity |].
  intros H. destruct (sameId place x) eqn:S.
  - apply sameId_iff in S. tauto.
  - apply IH. tauto.
Qed.

Lemma NoDup_filter_sameId (place : SafePlace) (l : list SafePlace) :
  NoDup (map id l) -> (List.length (filter (sameId place) l) <= 1)%nat.
Proof.
  induction l as [| x t IH]; simpl; [lia |].
  intros H. inversion_clear H as [| ? ? Hx Ht].
  destruct (sameId place x) eqn:S; [| auto].
  apply sameId_iff in S.
  rewrite filter_sameId_nil by (now rewrite <- S). simpl. lia.
Qed.

Lemma find_filter_length (place : SafePlace) (l : list SafePlace) :
  find (sameId place) l <> None ->
  (1 <= List.length (filter (sameId place) l))%nat.
Proof.
  induction l as [| x t IH]; simpl; [congruence |].
  destruct (sameId place x); simpl; [lia | exact IH].
Qed.

Lemma find_sameId_In (place : SafePlace) (l : list SafePlace) :
  In place l -> find (sameId place) l <> None.
Proof.
  intros H E. apply (find_none _ _ E) in H.
  rewrite sameId_refl in H. discriminate.
Qed.

(** [uniquePlaces] keeps, for every identifier of the merged list,
    exactly one entry, the first that carries it. *)
Lemma uniquePlaces_first_occurrence (merged : list SafePlace) :
  NoDup (map id (NearbySafePlaces.uniquePlaces merged))
  /\ forall place, In place merged ->
       find (sameId place) (NearbySafePlaces.uniquePlaces merged)
       = find (sameId place) merged
       /\ List.length (filter (sameId place)
                         (NearbySafePlaces.uniquePlaces merged)) = 1%nat.
Proof.
  rewrite uniquePlaces_firstOccurrences. split.
  - apply firstOccurrences_NoDup.
  - intros place Hin.
    assert (F : find (sameId place) (firstOccurrences [] merged)
                = find (sameId place) merged)
      by now rewrite firstOccurrences_find.
    split; [exact F |].
    pose proof (@NoDup_filter_sameId place _ (firstOccurrences_NoDup merged [])).
    pose proof (@find_sameId_In place merged Hin) as Hn. rewrite <- F in Hn.
    apply find_filter_length in Hn. lia.
Qed.
End Deduplication.

(* ================================================================== *)
(** ** Sorting by distance *)

Section Sorting.

Lemma insert_Permutation (A : Type) (cmp : A -> A -> number) (x : A)
    (l : list A) :
  Permutation (insert cmp x l) (x :: l).
Proof.
  induction l as [| y t IH]; simpl; [reflexivity |].
  destruct (greater cmp x y); [| reflexivity].
  rewrite IH. apply perm_swap.
Qed.

Lemma sort_Permutation (A : Type) (cmp : A -> A -> number) (l : list A) :
  Permutation (sort cmp l) l.
Proof.
  induction l as [| x t IH]; simpl; [reflexivity |].
  rewrite insert_Permutation. now apply perm_skip.
Qed.

Lemma or_zero_number (d : option number) : isNaN (or_zero d) = false.
Proof.
  destruct d as [[q | | |] |]; simpl; try reflexivity.
  now destruct (negb (Qeq_bool q 0)).
Qed.

Lemma or_zero_same (d : number) :
  isNaN d = false -> same (or_zero (Some d)) d.
Proof.
  destruct d as [q | | |]; simpl; try easy.
  destruct (Qeq_bool q 0) eqn:E; simpl; [| reflexivity].
  apply Qeq_bool_iff in E. now symmetry.
Qed.

Lemma js_sub_positive (x y : number) :
  isNaN x = false -> isNaN y = false ->
  (Num 0 <? x - y)%js = (y <? x)%js.
Proof.
  destruct x as [a | | |], y as [b | | |]; simpl; try reflexivity;
    try discriminate.
  intros _ _. f_equal. apply eq_true_iff_eq.
  rewrite !Qle_bool_iff. split; intros; lra.
Qed.

(** The comparator orders by the key [distance || 0]. *)
Lemma greater_byDistance (a b : SafePlace) :
  greater NearbySafePlaces.byDistance a b
  = (or_zero (distance b) <? or_zero (distance a))%js.
Proof.
  unfold greater, NearbySafePlaces.byDistance.
  apply js_sub_positive; apply or_zero_number.
Qed.

Let keyLe (a b : SafePlace) : Prop :=
  (or_zero (distance a) <=? or_zero (distance b))%js = true.

Lemma insert_sorted (x : SafePlace) (l : list SafePlace) :
  StronglySorted keyLe l ->
  StronglySorted keyLe (insert NearbySafePlaces.byDistance x l).
Proof.
  induction 1 as [| y t Ht IH Hy]; simpl.
  - constructor; constructor.
  - rewrite greater_byDistance.
    destruct (or_zero (distance y) <? or_zero (distance x))%js eqn:E.
    + constructor; [exact IH |].
      apply (@Permutation_Forall _ _ (x :: t));
        [symmetry; apply insert_Permutation |].
      constructor; [| exact Hy]. now apply js_lt_le.
    + apply js_not_lt_le in E; try apply or_zero_number.
      constructor; [now constructor |].
      constructor; [exact E |].
      eapply Forall_impl; [| exact Hy].
      intros z Hz. eapply js_le_trans; eassumption.
Qed.

Lemma sort_sorted (l : list SafePlace) :
  StronglySorted keyLe (sort NearbySafePlaces.byDistance l).
Proof.
  induction l as [| x t IH]; simpl; [constructor | now apply insert_sorted].
Qed.

Lemma StronglySorted_nth_error (A : Type) (R : A -> A -> Prop) (l : list A) :
  StronglySorted R l ->
  forall i j a b, (i < j)%nat ->
    nth_error l i = Some a -> nth_error l j = Some b -> R a b.
Proof.
  induction 1 as [| x t Ht IH Hx]; intros i j a b Hij Ha Hb.
  - now destruct i.
  - destruct j as [| j]; [lia |]. simpl in Hb.
    destruct i as [| i]; simpl in Ha.
    + injection Ha as <-. rewrite Forall_forall in Hx.
      apply Hx. eapply nth_error_In; eassumption.
    + apply (IH i j); auto. lia.
Qed.

(** Places that all carry a numeric distance come out of the sort in
    ascending order of that distance. *)
Lemma sort_ascending (l : list SafePlace) :
  distancesKnown l -> ascending (sort NearbySafePlaces.byDistance l).
Proof.
  intros Hk i j pi pj Hij Hi Hj.
  pose proof (StronglySorted_nth_error (sort_sorted l) Hij Hi Hj) as Hle.
  assert (Hs : distancesKnown (sort NearbySafePlaces.byDistance l)).
  { eapply Permutation_Forall; [symmetry; apply sort_Permutation | exact Hk]. }
  unfold distancesKnown in Hs. rewrite Forall_forall in Hs.
  destruct (Hs pi (nth_error_In _ _ Hi)) as (di & Hdi & Ni).
  destruct (Hs pj (nth_error_In _ _ Hj)) as (dj & Hdj & Nj).
  exists di, dj. repeat split; auto.
  unfold keyLe in Hle. rewrite Hdi, Hdj in Hle.
  rewrite <- Hle. symmetry.
  apply js_le_same; now apply or_zero_same.
Qed.

Lemma firstn_ascending (n : nat) (l : list SafePlace) :
  ascending l -> ascending (firstn n l).
Proof.
  intros H i j pi pj Hij Hi Hj.
  rewrite nth_error_firstn in Hi, Hj.
  destruct (i <? n)%nat, (j <? n)%nat; try discriminate.
  eapply H; eassumption.
Qed.

(** Cutting an ascending list after [n] entries leaves out no entry nearer
    than one that is kept. *)
Lemma firstn_nearest (n : nat) (l : list SafePlace) (p q : SafePlace) :
  ascending l -> In p (firstn n l) -> In q (skipn n l) ->
  exists dp dq, distance p = Some dp /\ distance q = Some dq
                /\ (dp <=? dq)%js = true.
Proof.
  intros H Hp Hq.
  apply In_nth_error in Hp. destruct Hp as [i Hi].
  apply In_nth_error in Hq. destruct Hq as [j Hj].
  rewrite nth_error_firstn in Hi. rewrite nth_error_skipn in Hj.
  destruct (Nat.ltb_spec i n) as [L | L]; [| discriminate].
  apply (H i (n + j)%nat p q); [lia | exact Hi | exact Hj].
Qed.
End Sorting.

(* ================================================================== *)
(** ** The join of the provider queries *)

Section Aggregation.
Variable getDistance : LatLng -> LatLng -> number.
Variable nearbySearch : LatLng -> Z -> string -> Response.

Let contribution := NearbySafePlaces.contribution getDistance nearbySearch.
Let callback := NearbySafePlaces.callback getDistance nearbySearch.
Let search := NearbySafePlaces.searchWithGoogleService getDistance nearbySearch.
Let findNearbyPlaces :=
  NearbySafePlaces.findNearbyPlaces getDistance nearbySearch.

(** What [allPlaces] holds when [completedSearches] reaches
    [totalSearches]: the results of the requests that completed first. *)
Let joined (completion : list Query) (location : LatLng) (radius : Z)
  : list SafePlace :=
  flat_map (contribution location radius)
    (firstn NearbySafePlaces.totalSearches completion).

Lemma totalSearches_value : NearbySafePlaces.totalSearches = 6%nat.
Proof. reflexivity. Qed.

Lemma dispatched_keywords :
  map keyword NearbySafePlaces.dispatched
  = [ "police station"; "police"; "hospital"; "emergency"; "medical center";
      "government office"; "collectorate"; "fire station" ]%string.
Proof. reflexivity. Qed.

Lemma callbacks_state (location : LatLng) (radius : Z)
    (completion : list Query) :
  let s := fold_left (callback location radius) completion
             (NearbySafePlaces.mkSearchState [] 0 None) in
  NearbySafePlaces.allPlaces s
  = flat_map (contribution location radius) completion
  /\ NearbySafePlaces.completedSearches s = List.length completion
  /\ NearbySafePlaces.settled s
     = if (NearbySafePlaces.totalSearches <=? List.length completion)%nat
       then Some (sort NearbySafePlaces.byDistance
                    (NearbySafePlaces.uniquePlaces
                       (joined completion location radius)))
       else None.
Proof.
  cbv zeta. unfold joined.
  assert (Hpos : (0 < NearbySafePlaces.totalSearches)%nat)
    by (rewrite totalSearches_value; lia).
  remember NearbySafePlaces.totalSearches as n eqn:Hn.
  induction completion as [| q done IH] using rev_ind.
  - simpl. repeat split. now destruct n; [lia |].
  - destruct IH as (Hall & Hcount & Hsettled).
    rewrite fold_left_app. simpl fold_left.
    remember (fold_left (callback location radius) done
                (NearbySafePlaces.mkSearchState [] 0 None)) as s eqn:Hs.
    unfold callback, NearbySafePlaces.callback.
    rewrite <- Hn. fold contribution.
    simpl NearbySafePlaces.allPlaces.
    simpl NearbySafePlaces.completedSearches.
    simpl NearbySafePlaces.settled.
    rewrite Hall, Hcount, Hsettled, length_app, flat_map_app.
    simpl List.length. simpl flat_map. rewrite app_nil_r, Nat.add_1_r.
    repeat split.
    change (match n with
            | O => false
            | S m' => (List.length done =? m')%nat
            end) with (S (List.length done) =? n)%nat.
    destruct (Nat.eqb_spec (S (List.length done)) n) as [E | E].
    + rewrite <- E.
      rewrite (proj2 (Nat.leb_gt _ _)) by lia.
      rewrite (proj2 (Nat.leb_le _ _)) by lia.
      rewrite firstn_all2 by (rewrite length_app; simpl; lia).
      rewrite flat_map_app; simpl; rewrite app_nil_r.
      reflexivity.
    + destruct (Nat.leb_spec n (List.length done)) as [L | L].
      * rewrite (proj2 (Nat.leb_le _ _)) by lia.
        rewrite firstn_app.
        replace (n - List.length done)%nat with 0%nat by lia.
        simpl. now rewrite app_nil_r.
      * rewrite (proj2 (Nat.leb_gt _ _)) by lia. reflexivity.
Qed.

Lemma search_rejected (completion : list Query) (location : LatLng)
    (radius : Z) :
  search false completion location radius = Rejected "Google Maps not loaded".
Proof. reflexivity. Qed.

(** With the library loaded, the promise settles as soon as
    [totalSearches] callbacks have run, with the results of those. *)
Lemma search_resolved (completion : list Query) (location : LatLng)
    (radius : Z) :
  (NearbySafePlaces.totalSearches <= List.length completion)%nat ->
  search true completion location radius
  = Resolved (sort NearbySafePlaces.byDistance
                (NearbySafePlaces.uniquePlaces
                   (joined completion location radius))).
Proof.
  intros H. unfold search, NearbySafePlaces.searchWithGoogleService.
  simpl negb. cbv iota.
  destruct (callbacks_state location radius completion) as (_ & _ & Hs).
  fold callback. rewrite Hs.
  now rewrite (proj2 (Nat.leb_le _ _)) by exact H.
Qed.

Lemma search_pending (completion : list Query) (location : LatLng)
    (radius : Z) :
  (List.length completion < NearbySafePlaces.totalSearches)%nat ->
  search true completion location radius = Pending.
Proof.
  intros H. unfold search, NearbySafePlaces.searchWithGoogleService.
  simpl negb. cbv iota.
  destruct (callbacks_state location radius completion) as (_ & _ & Hs).
  fold callback. rewrite Hs.
  now rewrite (proj2 (Nat.leb_gt _ _)) by exact H.
Qed.

Lemma all_complete (completion : list Query) :
  Permutation completion NearbySafePlaces.dispatched ->
  (NearbySafePlaces.totalSearches <= List.length completion)%nat.
Proof.
  intros H. apply Permutation_length in H. rewrite H, totalSearches_value.
  change (List.length NearbySafePlaces.dispatched) with 8%nat. lia.
Qed.

(** Requests that complete after the first [totalSearches] have no part
    in the result. *)
Lemma late_completions_ignored (early late late' : list Query)
    (google : bool) (location : LatLng) (radius : Z) :
  List.length early = NearbySafePlaces.totalSearches ->
  search google (early ++ late) location radius
  = search google (early ++ late') location radius.
Proof.
  intros H. destruct google; [| reflexivity].
  rewrite !search_resolved by (rewrite length_app; lia).
  unfold joined. rewrite !firstn_app, H, Nat.sub_diag. simpl.
  now rewrite !app_nil_r.
Qed.

(** *** What a search resolves with, and what a call delivers *)

Lemma resolved_value (google : bool) (completion : list Query)
    (location : LatLng) (radius : Z) (value : list SafePlace) :
  search google completion location radius = Resolved value ->
  value = sort NearbySafePlaces.byDistance
            (NearbySafePlaces.uniquePlaces (joined completion location radius)).
Proof.
  destruct google; [| discriminate].
  destruct (le_lt_dec NearbySafePlaces.totalSearches (List.length completion))
    as [H | H].
  - rewrite search_resolved by exact H. congruence.
  - rewrite search_pending by exact H. discriminate.
Qed.

Lemma delivered_value (userLocation : option LatLng)
    (env : NearbySafePlaces.Environment) (location : LatLng)
    (s : NearbySafePlaces.State) (out : list SafePlace) :
  NearbySafePlaces.delivered (findNearbyPlaces userLocation env location s)
  = Some out ->
  exists radius value,
    search (NearbySafePlaces.google env)
      (NearbySafePlaces.completion env radius) location radius
    = Resolved value
    /\ out = firstn 8 value.
Proof.
  unfold findNearbyPlaces, NearbySafePlaces.findNearbyPlaces.
  fold search.
  destruct (search (NearbySafePlaces.google env)
              (NearbySafePlaces.completion env 20000) location 20000)
    as [places | reason |] eqn:E20; simpl; try discriminate.
  destruct places as [| p t].
  - destruct (search (NearbySafePlaces.google env)
                (NearbySafePlaces.completion env 50000) location 50000)
      as [places | reason |] eqn:E50; simpl; try discriminate.
    intros [= <-]. exists 50000%Z, places. auto.
  - simpl. intros [= <-]. exists 20000%Z, (p :: t). auto.
Qed.

Lemma NoDup_firstn (A : Type) (n : nat) (l : list A) :
  NoDup l -> NoDup (firstn n l).
Proof.
  intros H. rewrite <- (firstn_skipn n l) in H.
  now apply NoDup_app_remove_r in H.
Qed.

Lemma sort_NoDup_id (l : list SafePlace) :
  NoDup (map id l) -> NoDup (map id (sort NearbySafePlaces.byDistance l)).
Proof.
  apply Permutation_NoDup, Permutation_map. symmetry. apply sort_Permutation.
Qed.

(** C8. Deduplication is by provider identifier and keeps the first
    occurrence: in [uniquePlaces merged] every identifier of [merged] has
    exactly one entry, the earliest of [merged] that carries it, and the
    identifiers are pairwise distinct; they stay so in the sorted list a
    search resolves with and in the truncated list a call delivers. *)
Theorem deduplication_keeps_first_occurrence
    (merged : list SafePlace) (userLocation : option LatLng)
    (env : NearbySafePlaces.Environment) (location : LatLng)
    (s : NearbySafePlaces.State) :
  NoDup (map id (NearbySafePlaces.uniquePlaces merged))
  /\ (forall place, In place merged ->
        find (sameId place) (NearbySafePlaces.uniquePlaces merged)
        = find (sameId place) merged
        /\ List.length (filter (sameId place)
                          (NearbySafePlaces.uniquePlaces merged)) = 1%nat)
  /\ (forall google completion radius value,
        search google completion location radius = Resolved value ->
        NoDup (map id value))
  /\ (forall out,
        NearbySafePlaces.delivered
          (findNearbyPlaces userLocation env location s) = Some out ->
        NoDup (map id out)).
Proof.
  assert (R : forall google completion radius value,
            search google completion location radius = Resolved value ->
            NoDup (map id value)).
  { intros google completion radius value H.
    apply resolved_value in H. subst value.
    apply sort_NoDup_id, uniquePlaces_first_occurrence. }
  split; [apply uniquePlaces_first_occurrence |].
  split; [apply uniquePlaces_first_occurrence |].
  split; [exact R |].
  intros out H. apply delivered_value in H.
  destruct H as (radius & value & H & ->).
  rewrite <- firstn_map. apply NoDup_firstn. eapply R; eassumption.
Qed.

Lemma contribution_distancesKnown (location : LatLng) (radius : Z)
    (q : Query) :
  (forall a b, isNaN (getDistance a b) = false) ->
  distancesKnown (contribution location radius q).
Proof.
  intros H. unfold contribution, NearbySafePlaces.contribution.
  destruct (results (nearbySearch location radius (keyword q)));
    [| constructor].
  destruct (status_is_OK (status (nearbySearch location radius (keyword q))));
    [| constructor].
  apply Forall_forall. intros p Hp. apply in_map_iff in Hp.
  destruct Hp as (r & <- & _). simpl. eauto.
Qed.

Lemma joined_distancesKnown (completion : list Query) (location : LatLng)
    (radius : Z) :
  (forall a b, isNaN (getDistance a b) = false) ->
  distancesKnown
    (NearbySafePlaces.uniquePlaces (joined completion location radius)).
Proof.
  intros H. apply Forall_forall. intros p Hp.
  rewrite uniquePlaces_firstOccurrences in Hp.
  apply firstOccurrences_In in Hp. destruct Hp as [Hp _].
  unfold joined in Hp. apply in_flat_map in Hp. destruct Hp as (q & _ & Hp).
  pose proof (contribution_distancesKnown location radius q H) as Hk.
  unfold distancesKnown in Hk. rewrite Forall_forall in Hk. now apply Hk.
Qed.

(** C9. When [getDistance] yields numbers, the list a search resolves
    with and the truncated list a call delivers are in ascending order of
    distance. *)
Theorem output_ascending_by_distance
    (userLocation : option LatLng) (env : NearbySafePlaces.Environment)
    (location : LatLng) (s : NearbySafePlaces.State) :
  (forall a b, isNaN (getDistance a b) = false) ->
  (forall google completion radius value,
     search google completion location radius = Resolved value ->
     ascending value)
  /\ (forall out,
        NearbySafePlaces.delivered
          (findNearbyPlaces userLocation env location s) = Some out ->
        ascending out).
Proof.
  intros Hnum.
  assert (R : forall google completion radius value,
            search google completion location radius = Resolved value ->
            ascending value).
  { intros google completion radius value H.
    apply resolved_value in H. subst value.
    now apply sort_ascending, joined_distancesKnown. }
  split; [exact R |].
  intros out H. apply delivered_value in H.
  destruct H as (radius & value & H & ->).
  apply firstn_ascending. eapply R; eassumption.
Qed.

(** *** Radius fallback and truncation *)

(** Reads the fields of the outcome without unfolding the lists. *)
Ltac read_outcome :=
  unfold NearbySafePlaces.succeeded, NearbySafePlaces.failed;
  cbn [NearbySafePlaces.state NearbySafePlaces.searched
       NearbySafePlaces.delivered NearbySafePlaces.safePlaces
       NearbySafePlaces.searchRadius NearbySafePlaces.loading
       NearbySafePlaces.error NearbySafePlaces.zoneStatus
       NearbySafePlaces.setLoading NearbySafePlaces.setZoneStatus
       NearbySafePlaces.setSafePlaces NearbySafePlaces.setSearchRadius
       NearbySafePlaces.setError].

Let found (env : NearbySafePlaces.Environment) (location : LatLng)
    (radius : Z) : list SafePlace :=
  sort NearbySafePlaces.byDistance
    (NearbySafePlaces.uniquePlaces
       (joined (NearbySafePlaces.completion env radius) location radius)).

Lemma found_length (env : NearbySafePlaces.Environment) (location : LatLng)
    (radius : Z) :
  List.length (found env location radius)
  = List.length
      (NearbySafePlaces.uniquePlaces
         (joined (NearbySafePlaces.completion env radius) location radius)).
Proof. apply Permutation_length, sort_Permutation. Qed.

(** With the library loaded and every dispatched request completing, a
    call runs the [try] block to its end. *)
Lemma findNearbyPlaces_loaded
    (userLocation : option LatLng) (env : NearbySafePlaces.Environment)
    (location : LatLng) (s : NearbySafePlaces.State) :
  NearbySafePlaces.google env = true ->
  (forall radius,
     Permutation (NearbySafePlaces.completion env radius)
       NearbySafePlaces.dispatched) ->
  let s0 := NearbySafePlaces.setSearchRadius 20
              (NearbySafePlaces.setError None
                 (NearbySafePlaces.setLoading true s)) in
  findNearbyPlaces userLocation env location s
  = match found env location 20000 with
    | [] =>
        NearbySafePlaces.succeeded userLocation
          (NearbySafePlaces.setSearchRadius 50 s0)
          (found env location 50000) [20000; 50000]%Z
    | _ :: _ =>
        NearbySafePlaces.succeeded userLocation s0
          (found env location 20000) [20000]%Z
    end.
Proof.
  intros Hg Hall. cbv zeta.
  unfold findNearbyPlaces, NearbySafePlaces.findNearbyPlaces.
  fold search. rewrite Hg.
  rewrite !search_resolved by (apply all_complete, Hall).
  fold (found env location 20000). fold (found env location 50000).
  now destruct (found env location 20000).
Qed.

(** X19. With the library loaded, every dispatched request completing and
    [getDistance] yielding numbers, a call first searches at 20 000 m. If
    that search resolves with a non-empty list, no second search is made
    and the radius shown is 20; if it resolves with the empty list, one more
    search is made, at 50 000 m, and the radius shown is 50. The list kept
    is the first 8 entries of the list the last search resolved with, whose
    identifiers are pairwise distinct: its length is the minimum of 8 and
    the length of that list, it is in ascending order of distance and no
    entry left out is nearer than an entry kept. The kept list is what is
    delivered. *)
Theorem radius_fallback_and_truncation
    (userLocation : option LatLng) (env : NearbySafePlaces.Environment)
    (location : LatLng) (s : NearbySafePlaces.State) :
  NearbySafePlaces.google env = true ->
  (forall radius,
     Permutation (NearbySafePlaces.completion env radius)
       NearbySafePlaces.dispatched) ->
  (forall a b, isNaN (getDistance a b) = false) ->
  let o := findNearbyPlaces userLocation env location s in
  let kept := NearbySafePlaces.safePlaces (NearbySafePlaces.state o) in
  exists first value,
    search true (NearbySafePlaces.completion env 20000) location 20000
    = Resolved first
    /\ match first with
       | _ :: _ =>
           value = first
           /\ NearbySafePlaces.searched o = [20000]%Z
           /\ NearbySafePlaces.searchRadius (NearbySafePlaces.state o) = 20%Z
       | [] =>
           search true (NearbySafePlaces.completion env 50000) location 50000
           = Resolved value
           /\ NearbySafePlaces.searched o = [20000; 50000]%Z
           /\ NearbySafePlaces.searchRadius (NearbySafePlaces.state o) = 50%Z
       end
    /\ NoDup (map id value)
    /\ kept = firstn 8 value
    /\ List.length kept = Nat.min 8 (List.length value)
    /\ ascending kept
    /\ (forall p q, In p kept -> In q (skipn 8 value) ->
          exists dp dq, distance p = Some dp /\ distance q = Some dq
                        /\ (dp <=? dq)%js = true)
    /\ NearbySafePlaces.delivered o = Some kept.
Proof.
  intros Hg Hall Hnum. cbv zeta.
  assert (U : forall radius, NoDup (map id (found env location radius))).
  { intros radius. apply sort_NoDup_id, uniquePlaces_first_occurrence. }
  assert (A : forall radius, ascending (found env location radius)).
  { intros radius. now apply sort_ascending, joined_distancesKnown. }
  rewrite (@findNearbyPlaces_loaded userLocation env location s Hg Hall).
  exists (found env location 20000).
  destruct (found env location 20000) as [| p t] eqn:F20.
  - exists (found env location 50000).
    split; [rewrite <- F20; apply search_resolved, all_complete, Hall |].
    split; [split; [apply search_resolved, all_complete, Hall |];
            read_outcome; now split |].
    read_outcome.
    split; [apply U |]. split; [reflexivity |].
    split; [apply length_firstn |].
    split; [apply firstn_ascending, A |].
    split; [| reflexivity].
    intros x y. apply firstn_nearest, A.
  - exists (p :: t).
    split; [rewrite <- F20; apply search_resolved, all_complete, Hall |].
    split; [read_outcome; now repeat split |].
    read_outcome. rewrite <- F20.
    split; [apply U |]. split; [reflexivity |].
    split; [apply length_firstn |].
    split; [apply firstn_ascending, A |].
    split; [| reflexivity].
    intros x y. apply firstn_nearest, A.
Qed.

(** *** Provider failure *)

Lemma contribution_failed (location : LatLng) (radius : Z) (q : Query) :
  status (nearbySearch location radius (keyword q)) <> OK ->
  contribution location radius q = [].
Proof.
  intros H. unfold contribution, NearbySafePlaces.contribution.
  destruct (results (nearbySearch location radius (keyword q))); auto.
  destruct (status (nearbySearch location radius (keyword q))); auto.
  now elim H.
Qed.

Lemma joined_all_failed (completion : list Query) (location : LatLng)
    (radius : Z) :
  (forall kw, status (nearbySearch location radius kw) <> OK) ->
  joined completion location radius = [].
Proof.
  intros H. unfold joined.
  induction (firstn NearbySafePlaces.totalSearches completion) as [| q l IH];
    simpl; auto.
  rewrite IH. now rewrite contribution_failed.
Qed.

(** C5, as the code has it. When the maps library is not loaded, the
    call sets the error message, which the component shows with a Retry
    button, clears the loading flag, hands nothing to
    [onNearestPlaceUpdate] and leaves the stored list, radius and zone
    status as they were. When the library is loaded and every request
    comes back with a status other than OK, the call sets no error: it
    stores and delivers the empty list after the 50 000 m attempt. *)
Theorem provider_failure_outcome
    (userLocation : option LatLng) (env : NearbySafePlaces.Environment)
    (location : LatLng) (s : NearbySafePlaces.State) :
  let o := findNearbyPlaces userLocation env location s in
  let s' := NearbySafePlaces.state o in
  let message := "Unable to fetch nearby places. Please try again."%string in
  (NearbySafePlaces.google env = false ->
     NearbySafePlaces.error s' = Some message
     /\ NearbySafePlaces.loading s' = false
     /\ NearbySafePlaces.delivered o = None
     /\ NearbySafePlaces.safePlaces s' = NearbySafePlaces.safePlaces s
     /\ NearbySafePlaces.searchRadius s' = NearbySafePlaces.searchRadius s
     /\ NearbySafePlaces.zoneStatus s' = NearbySafePlaces.zoneStatus s
     /\ NearbySafePlaces.render (Some location) s'
        = NearbySafePlaces.ErrorCard message true)
  /\ (NearbySafePlaces.google env = true ->
      (forall radius,
         Permutation (NearbySafePlaces.completion env radius)
           NearbySafePlaces.dispatched) ->
      (forall radius kw, status (nearbySearch location radius kw) <> OK) ->
      NearbySafePlaces.error s' = None
      /\ NearbySafePlaces.loading s' = false
      /\ NearbySafePlaces.delivered o = Some []
      /\ NearbySafePlaces.safePlaces s' = []
      /\ NearbySafePlaces.searchRadius s' = 50%Z
      /\ NearbySafePlaces.searched o = [20000; 50000]%Z
      /\ NearbySafePlaces.render (Some location) s'
         = NearbySafePlaces.PlacesCard 50 None []).
Proof.
  cbv zeta. split.
  - intros Hg. unfold findNearbyPlaces, NearbySafePlaces.findNearbyPlaces.
    rewrite Hg. simpl. repeat split.
  - intros Hg Hall Hfail.
    assert (F : forall radius, found env location radius = []).
    { intros radius. unfold found.
      now rewrite joined_all_failed by (intros kw; apply Hfail). }
    rewrite (@findNearbyPlaces_loaded userLocation env location s Hg Hall).
    rewrite !F. read_outcome. unfold NearbySafePlaces.render.
    cbn [firstn NearbySafePlaces.loading NearbySafePlaces.error
         NearbySafePlaces.safePlaces NearbySafePlaces.searchRadius
         NearbySafePlaces.zoneStatus].
    rewrite (@calculateZoneStatus_absent userLocation []) by now right.
    repeat split.
Qed.
End Aggregation.

(* ================================================================== *)
(** ** The aggregation on sample providers *)

(** C1. The join condition is 6, the product of the number of categories
    and the number of keywords of the first category, while 8 requests are
    dispatched. With a provider that knows one place, under the keyword
    dispatched last, and requests completing in dispatch order, the search
    resolves with the empty list although the last request contributes the
    place, and the call delivers the empty list; had the requests completed
    in the reverse order, the search would have resolved with that place. *)
Theorem join_resolves_before_last_queries :
  let lastQuery := mkQuery government "fire station" in
  let search :=
    NearbySafePlaces.searchWithGoogleService Sample.meridian
      Sample.onlyFireStation true in
  let place :=
    NearbySafePlaces.toSafePlace Sample.meridian Sample.here government
      Sample.fireStation in
  NearbySafePlaces.totalSearches = 6%nat
  /\ List.length NearbySafePlaces.dispatched = 8%nat
  /\ nth_error NearbySafePlaces.dispatched 7 = Some lastQuery
  /\ NearbySafePlaces.contribution Sample.meridian Sample.onlyFireStation
       Sample.here 20000 lastQuery = [place]
  /\ search NearbySafePlaces.dispatched Sample.here 20000%Z = Resolved []
  /\ search (rev NearbySafePlaces.dispatched) Sample.here 20000%Z
     = Resolved [place]
  /\ NearbySafePlaces.delivered
       (NearbySafePlaces.findNearbyPlaces Sample.meridian
          Sample.onlyFireStation (Some Sample.here) Sample.loaded Sample.here
          NearbySafePlaces.initial) = Some [].
Proof. cbv zeta. repeat split; reflexivity. Qed.


(** The city provider answers at 20 000 m: one search, radius 20, three
    places kept. The out-of-town provider answers only at 50 000 m: two
    searches, radius 50, and of its nine hospitals the eight nearest are
    kept, nearest first. *)
Lemma radius_fallback_and_truncation_witness :
  let call provider :=
    NearbySafePlaces.findNearbyPlaces Sample.meridian provider
      (Some Sample.here) Sample.loaded Sample.here NearbySafePlaces.initial in
  let kept provider :=
    NearbySafePlaces.safePlaces (NearbySafePlaces.state (call provider)) in
  (NearbySafePlaces.searched (call Sample.city) = [20000]%Z
   /\ NearbySafePlaces.searchRadius (NearbySafePlaces.state (call Sample.city))
      = 20%Z
   /\ List.length (kept Sample.city) = 3%nat)
  /\ (NearbySafePlaces.searched (call Sample.outOfTown) = [20000; 50000]%Z
      /\ NearbySafePlaces.searchRadius
           (NearbySafePlaces.state (call Sample.outOfTown)) = 50%Z
      /\ map id (kept Sample.outOfTown)
         = ["D1"; "D2"; "D3"; "D4"; "D5"; "D6"; "D7"; "D8"]%string).
Proof.
  cbv zeta.
  assert (Hnum : forall a b, isNaN (Sample.meridian a b) = false).
  { intros a b. unfold Sample.meridian. destruct (lat a), (lat b); reflexivity. }
  split.
  - destruct (@radius_fallback_and_truncation Sample.meridian Sample.city
                (Some Sample.here) Sample.loaded Sample.here
                NearbySafePlaces.initial eq_refl
                (fun radius => Permutation_refl NearbySafePlaces.dispatched)
                Hnum)
      as (first & value & Hfirst & Hcase & _ & _ & Hlength & _).
    vm_compute in Hfirst. injection Hfirst as <-.
    cbv beta iota in Hcase. destruct Hcase as (-> & Hsearched & Hradius).
    split; [exact Hsearched |]. split; [exact Hradius |].
    rewrite Hlength. reflexivity.
  - destruct (@radius_fallback_and_truncation Sample.meridian Sample.outOfTown
                (Some Sample.here) Sample.loaded Sample.here
                NearbySafePlaces.initial eq_refl
                (fun radius => Permutation_refl NearbySafePlaces.dispatched)
                Hnum)
      as (first & value & Hfirst & Hcase & _ & Hkept & _).
    vm_compute in Hfirst. injection Hfirst as <-.
    cbv beta iota in Hcase. destruct Hcase as (Hsecond & Hsearched & Hradius).
    vm_compute in Hsecond. injection Hsecond as <-.
    split; [exact Hsearched |]. split; [exact Hradius |].
    rewrite Hkept. reflexivity.
Defined.

(** C5 fails as stated. With the library loaded and a provider that fails
    every request, the call sets no error and delivers the empty list;
    with the library not loaded, the call delivers nothing and the list
    stored by an earlier search stays. *)
Lemma unreachable_provider_sets_no_error :
  let o := NearbySafePlaces.findNearbyPlaces Sample.meridian Sample.unreachable
             (Some Sample.here) Sample.loaded Sample.here
             NearbySafePlaces.initial in
  let o' := NearbySafePlaces.findNearbyPlaces Sample.meridian Sample.unreachable
              (Some Sample.here) Sample.notLoaded Sample.here
              Sample.showingClinic in
  NearbySafePlaces.error (NearbySafePlaces.state o) = None
  /\ NearbySafePlaces.delivered o = Some []
  /\ NearbySafePlaces.render (Some Sample.here) (NearbySafePlaces.state o)
     = NearbySafePlaces.PlacesCard 50 None []
  /\ NearbySafePlaces.delivered o' = None
  /\ NearbySafePlaces.delivered o' <> Some []
  /\ NearbySafePlaces.safePlaces (NearbySafePlaces.state o') = [Sample.clinic]
  /\ NearbySafePlaces.safePlaces (NearbySafePlaces.state o') <> [].
Proof. cbv zeta. repeat split; try reflexivity; discriminate. Qed.

(** With the library not loaded the error message is set and nothing is
    delivered. *)
Lemma provider_failure_outcome_witness :
  let o := NearbySafePlaces.findNearbyPlaces Sample.meridian Sample.unreachable
             (Some Sample.here) Sample.notLoaded Sample.here
             Sample.showingClinic in
  NearbySafePlaces.error (NearbySafePlaces.state o)
  = Some "Unable to fetch nearby places. Please try again."%string
  /\ NearbySafePlaces.delivered o = None.
Proof.
  cbv zeta.
  destruct (proj1 (provider_failure_outcome Sample.meridian Sample.unreachable
                     (Some Sample.here) Sample.notLoaded Sample.here
                     Sample.showingClinic) eq_refl)
    as (He & _ & Hd & _).
  split; [exact He | exact Hd].
Defined.

(** The city provider, with distances along the meridian: the delivered
    list is P1, H1, P2, in ascending order of distance. *)
Lemma output_ascending_by_distance_witness :
  exists out,
    NearbySafePlaces.delivered
      (NearbySafePlaces.findNearbyPlaces Sample.meridian Sample.city
         (Some Sample.here) Sample.loaded Sample.here NearbySafePlaces.initial)
    = Some out
    /\ map id out = ["P1"; "H1"; "P2"]%string
    /\ ascending out.
Proof.
  assert (Hnum : forall a b, isNaN (Sample.meridian a b) = false).
  { intros a b. unfold Sample.meridian. destruct (lat a), (lat b); reflexivity. }
  eexists. split; [reflexivity |]. split; [reflexivity |].
  apply (proj2 (@output_ascending_by_distance Sample.meridian Sample.city
                  (Some Sample.here) Sample.loaded Sample.here
                  NearbySafePlaces.initial Hnum)).
  reflexivity.
Defined.

(** The scenario of the specification: the provider returns P1 under the
    keywords police station and police; the delivered list holds P1 once. *)
Lemma deduplication_keeps_first_occurrence_witness :
  exists out,
    NearbySafePlaces.delivered
      (NearbySafePlaces.findNearbyPlaces Sample.meridian Sample.city
         (Some Sample.here) Sample.loaded Sample.here NearbySafePlaces.initial)
    = Some out
    /\ List.length (filter (fun p => String.eqb (id p) "P1") out) = 1%nat
    /\ NoDup (map id out).
Proof.
  eexists. split; [reflexivity |]. split; [reflexivity |].
  apply (proj2 (proj2 (proj2
           (@deduplication_keeps_first_occurrence Sample.meridian Sample.city
              [] (Some Sample.here) Sample.loaded Sample.here
              NearbySafePlaces.initial)))).
  reflexivity.
Defined.

(* ================================================================== *)
(** ** The haversine bodies *)

Module HaversineFacts.
Import PrimFloat Reals Lra.
Local Open Scope R_scope.
#[local] Set Warnings "-inexact-float".

(** C10, as the code has it. On doubles, whatever the engine's [Math],
    the [getDistance] of NearbySafePlaces and the [getDistance] of GoogleMap
    yield the same value on every pair of coordinates, 6371000 times [c],
    and the [getDistance] of the Dashboard yields 6371 times the same [c].
    Over the real numbers the value of the Dashboard is the value of the
    other two divided by 1000. *)
Theorem getDistance_same_angle_two_radii :
  (forall (M : HaversineDouble.Math) (pos1 pos2 : HaversineDouble.Pos),
     HaversineDouble.NearbySafePlaces.getDistance M pos1 pos2
     = HaversineDouble.GoogleMap.getDistance M pos1 pos2
     /\ HaversineDouble.NearbySafePlaces.getDistance M pos1 pos2
        = (6371000 * HaversineDouble.c M pos1 pos2)%float
     /\ HaversineDouble.Dashboard.getDistance M
          (HaversineDouble.lat pos1) (HaversineDouble.lng pos1)
          (HaversineDouble.lat pos2) (HaversineDouble.lng pos2)
        = (6371 * HaversineDouble.c M pos1 pos2)%float)
  /\ (forall pos1 pos2 : Haversine.Pos,
        Haversine.NearbySafePlaces.getDistance pos1 pos2
        = Haversine.GoogleMap.getDistance pos1 pos2
        /\ Haversine.Dashboard.getDistance
             (Haversine.lat pos1) (Haversine.lng pos1)
             (Haversine.lat pos2) (Haversine.lng pos2)
           = Haversine.NearbySafePlaces.getDistance pos1 pos2 / 1000).
Proof.
  split.
  - intros M pos1 pos2. repeat split.
  - intros pos1 pos2. split; [reflexivity |].
    unfold Haversine.Dashboard.getDistance,
      Haversine.NearbySafePlaces.getDistance, Haversine.Dashboard.toRad.
    cbv zeta. field.
Qed.

(** C10 fails as stated. From the Delhi Police Control Room to AIIMS
    Hospital, [c] is 0x1.ab68033883cd3p-11; the two bodies in metres return
    5193.720878319266, which divided by 1000 is 5.193720878319266, and
    the body in km returns 5.193720878319267: each of the two products is
    rounded on its own, and so is the division. *)
Lemma getDistance_km_is_not_metres_over_1000 :
  let metres :=
    HaversineDouble.NearbySafePlaces.getDistance DoubleSample.libm
      DoubleSample.controlRoom DoubleSample.AIIMS in
  let km :=
    HaversineDouble.Dashboard.getDistance DoubleSample.libm
      (HaversineDouble.lat DoubleSample.controlRoom)
      (HaversineDouble.lng DoubleSample.controlRoom)
      (HaversineDouble.lat DoubleSample.AIIMS)
      (HaversineDouble.lng DoubleSample.AIIMS) in
  HaversineDouble.c DoubleSample.libm DoubleSample.controlRoom
    DoubleSample.AIIMS = 0x1.ab68033883cd3p-11%float
  /\ metres = 5193.720878319266%float
  /\ HaversineDouble.GoogleMap.getDistance DoubleSample.libm
       DoubleSample.controlRoom DoubleSample.AIIMS = metres
  /\ (metres / 1000)%float = 5.193720878319266%float
  /\ km = 5.193720878319267%float
  /\ (km =? metres / 1000)%float = false
  /\ km <> (metres / 1000)%float.
Proof.
  cbv zeta. repeat split; try reflexivity.
  intros H.
  assert (E : (HaversineDouble.Dashboard.getDistance DoubleSample.libm
                 (HaversineDouble.lat DoubleSample.controlRoom)
                 (HaversineDouble.lng DoubleSample.controlRoom)
                 (HaversineDouble.lat DoubleSample.AIIMS)
                 (HaversineDouble.lng DoubleSample.AIIMS)
               =? HaversineDouble.NearbySafePlaces.getDistance
                    DoubleSample.libm DoubleSample.controlRoom
                    DoubleSample.AIIMS / 1000)%float = true).
  { rewrite <- H. reflexivity. }
  discriminate E.
Qed.

Lemma atan2_0_1 : Haversine.atan2 0 1 = 0.
Proof.
  unfold Haversine.atan2.
  destruct (Rlt_dec 0 1) as [_ | H]; [| exfalso; lra].
  replace (0 / 1) with 0 by field. apply atan_0.
Qed.

(** A place at the user's own coordinates is at distance 0. *)
Lemma getDistance_same_position (pos : Haversine.Pos) :
  Haversine.NearbySafePlaces.getDistance pos pos = 0.
Proof.
  unfold Haversine.NearbySafePlaces.getDistance. cbv zeta.
  replace ((Haversine.lat pos - Haversine.lat pos) * PI / 180 / 2) with 0
    by field.
  replace ((Haversine.lng pos - Haversine.lng pos) * PI / 180 / 2) with 0
    by field.
  rewrite sin_0, !Rmult_0_r, Rplus_0_r, Rminus_0_r, sqrt_0, sqrt_1, atan2_0_1.
  ring.
Qed.

(** The distance does not depend on the order of the two positions. *)
Lemma getDistance_symmetric (pos1 pos2 : Haversine.Pos) :
  Haversine.NearbySafePlaces.getDistance pos1 pos2
  = Haversine.NearbySafePlaces.getDistance pos2 pos1.
Proof.
  unfold Haversine.NearbySafePlaces.getDistance. cbv zeta.
  replace ((Haversine.lat pos1 - Haversine.lat pos2) * PI / 180 / 2)
    with (- ((Haversine.lat pos2 - Haversine.lat pos1) * PI / 180 / 2))
    by field.
  replace ((Haversine.lng pos1 - Haversine.lng pos2) * PI / 180 / 2)
    with (- ((Haversine.lng pos2 - Haversine.lng pos1) * PI / 180 / 2))
    by field.
  rewrite !sin_neg.
  set (u := sin ((Haversine.lat pos2 - Haversine.lat pos1) * PI / 180 / 2)).
  set (v := sin ((Haversine.lng pos2 - Haversine.lng pos1) * PI / 180 / 2)).
  set (c1 := cos (Haversine.lat pos1 * PI / 180)).
  set (c2 := cos (Haversine.lat pos2 * PI / 180)).
  replace (- u * - u + c2 * c1 * - v * - v) with (u * u + c1 * c2 * v * v)
    by ring.
  reflexivity.
Qed.

End HaversineFacts.

(* ================================================================== *)
(** ** More on the haversine bodies *)

Module HaversineRange.
Import Reals Lra.
Local Open Scope R_scope.

Lemma getDistance_by_a (pos1 pos2 : Haversine.Pos) :
  Haversine.NearbySafePlaces.getDistance pos1 pos2
  = 6371000 *
    (2 * Haversine.atan2
           (sqrt (HaversineArgument.a (Haversine.lat pos1) (Haversine.lng pos1)
                    (Haversine.lat pos2) (Haversine.lng pos2)))
           (sqrt (1 - HaversineArgument.a (Haversine.lat pos1)
                        (Haversine.lng pos1) (Haversine.lat pos2)
                        (Haversine.lng pos2)))).
Proof. reflexivity. Qed.

Lemma getDistance_km (lat1 lon1 lat2 lon2 : R) :
  Haversine.Dashboard.getDistance lat1 lon1 lat2 lon2
  = Haversine.NearbySafePlaces.getDistance
      (Haversine.mkPos lat1 lon1) (Haversine.mkPos lat2 lon2) / 1000.
Proof.
  unfold Haversine.Dashboard.getDistance, Haversine.NearbySafePlaces.getDistance,
    Haversine.Dashboard.toRad.
  cbv zeta. simpl Haversine.lat. simpl Haversine.lng. field.
Qed.

Lemma a_range (phi1 phi2 dl : R) :
  - (PI / 2) <= phi1 <= PI / 2 -> - (PI / 2) <= phi2 <= PI / 2 ->
  0 <= sin ((phi2 - phi1) / 2) * sin ((phi2 - phi1) / 2)
       + cos phi1 * cos phi2 * sin dl * sin dl <= 1.
Proof.
  intros H1 H2.
  assert (C1 : 0 <= cos phi1) by (apply cos_ge_0; lra).
  assert (C2 : 0 <= cos phi2) by (apply cos_ge_0; lra).
  assert (S : 0 <= sin dl * sin dl <= 1).
  { pose proof (SIN_bound dl). split; nra. }
  assert (E : sin ((phi2 - phi1) / 2) * sin ((phi2 - phi1) / 2)
              = (1 - cos (phi2 - phi1)) / 2).
  { replace (phi2 - phi1) with (2 * ((phi2 - phi1) / 2)) at 3 by field.
    rewrite cos_2a_sin. field. }
  pose proof (cos_minus phi2 phi1) as F.
  pose proof (cos_plus phi2 phi1) as G.
  pose proof (COS_bound (phi2 + phi1)) as B.
  assert (P : 0 <= cos phi1 * cos phi2) by (apply Rmult_le_pos; lra).
  assert (U : cos phi1 * cos phi2 * sin dl * sin dl
              = cos phi1 * cos phi2 * (sin dl * sin dl)) by ring.
  rewrite U. split.
  - assert (0 <= cos phi1 * cos phi2 * (sin dl * sin dl))
      by (apply Rmult_le_pos; lra).
    nra.
  - assert (cos phi1 * cos phi2 * (sin dl * sin dl) <= cos phi1 * cos phi2)
      by nra.
    rewrite E. lra.
Qed.

Lemma atan2_quadrant (y x : R) :
  0 <= y -> 0 <= x -> 0 <= Haversine.atan2 y x <= PI / 2.
Proof.
  intros Hy Hx. unfold Haversine.atan2.
  pose proof PI_RGT_0 as P.
  destruct (Rlt_dec 0 x) as [Px | Nx].
  - pose proof (atan_bound (y / x)) as B.
    split; [| lra].
    destruct (Req_dec y 0) as [-> | Ny].
    + replace (0 / x) with 0 by (field; lra). rewrite atan_0. lra.
    + left. rewrite <- atan_0. apply atan_increasing.
      apply Rdiv_lt_0_compat; lra.
  - destruct (Rlt_dec x 0); [lra |].
    destruct (Rlt_dec 0 y); [lra |].
    destruct (Rlt_dec y 0); lra.
Qed.

(** X12. For latitudes between -90 and 90 degrees the value [a] lies
    between 0 and 1, so both square roots are taken of non-negative
    numbers, and the distance in metres lies between 0 and half the
    circumference, 6 371 000 times pi. *)
Theorem getDistance_range (pos1 pos2 : Haversine.Pos) :
  -90 <= Haversine.lat pos1 <= 90 -> -90 <= Haversine.lat pos2 <= 90 ->
  0 <= HaversineArgument.a (Haversine.lat pos1) (Haversine.lng pos1)
         (Haversine.lat pos2) (Haversine.lng pos2) <= 1
  /\ 0 <= Haversine.NearbySafePlaces.getDistance pos1 pos2 <= 6371000 * PI.
Proof.
  intros H1 H2. pose proof PI_RGT_0 as P.
  assert (A : 0 <= HaversineArgument.a (Haversine.lat pos1)
                     (Haversine.lng pos1) (Haversine.lat pos2)
                     (Haversine.lng pos2) <= 1).
  { unfold HaversineArgument.a.
    replace ((Haversine.lat pos2 - Haversine.lat pos1) * PI / 180 / 2)
      with ((Haversine.lat pos2 * PI / 180 - Haversine.lat pos1 * PI / 180) / 2)
      by field.
    apply a_range; split; nra. }
  split; [exact A |].
  rewrite getDistance_by_a.
  pose proof (atan2_quadrant
                (sqrt_pos (HaversineArgument.a (Haversine.lat pos1)
                             (Haversine.lng pos1) (Haversine.lat pos2)
                             (Haversine.lng pos2)))
                (sqrt_pos (1 - HaversineArgument.a (Haversine.lat pos1)
                                 (Haversine.lng pos1) (Haversine.lat pos2)
                                 (Haversine.lng pos2)))) as Q.
  lra.
Qed.

(** Between Connaught Place and India Gate. *)
Lemma getDistance_range_witness :
  0 <= Haversine.NearbySafePlaces.getDistance
         (Haversine.mkPos (286315 / 10000) (772167 / 10000))
         (Haversine.mkPos (286129 / 10000) (772295 / 10000))
    <= 6371000 * PI.
Proof.
  apply (getDistance_range
           (Haversine.mkPos (286315 / 10000) (772167 / 10000))
           (Haversine.mkPos (286129 / 10000) (772295 / 10000))).
  - simpl. lra.
  - simpl. lra.
Defined.

(** X10. Each of the three bodies gives distance 0 from a position to
    itself. *)
Theorem getDistance_zero_at_same_position (pos : Haversine.Pos) :
  Haversine.NearbySafePlaces.getDistance pos pos = 0
  /\ Haversine.GoogleMap.getDistance pos pos = 0
  /\ Haversine.Dashboard.getDistance (Haversine.lat pos) (Haversine.lng pos)
       (Haversine.lat pos) (Haversine.lng pos) = 0.
Proof.
  split; [apply HaversineFacts.getDistance_same_position |].
  split; [apply HaversineFacts.getDistance_same_position |].
  rewrite getDistance_km.
  rewrite (HaversineFacts.getDistance_same_position
             (Haversine.mkPos (Haversine.lat pos) (Haversine.lng pos))).
  field.
Qed.

(** X11. Each of the three bodies gives the same distance from the first
    position to the second as from the second to the first. *)
Theorem getDistance_symmetric_all (pos1 pos2 : Haversine.Pos) :
  Haversine.NearbySafePlaces.getDistance pos1 pos2
  = Haversine.NearbySafePlaces.getDistance pos2 pos1
  /\ Haversine.GoogleMap.getDistance pos1 pos2
     = Haversine.GoogleMap.getDistance pos2 pos1
  /\ Haversine.Dashboard.getDistance (Haversine.lat pos1) (Haversine.lng pos1)
       (Haversine.lat pos2) (Haversine.lng pos2)
     = Haversine.Dashboard.getDistance (Haversine.lat pos2) (Haversine.lng pos2)
         (Haversine.lat pos1) (Haversine.lng pos1).
Proof.
  split; [apply HaversineFacts.getDistance_symmetric |].
  split; [apply HaversineFacts.getDistance_symmetric |].
  rewrite !getDistance_km. f_equal.
  apply HaversineFacts.getDistance_symmetric.
Qed.

End HaversineRange.

(* ================================================================== *)
(** ** More on the search and on a call *)

(** Reads the fields of an outcome, leaving the lists folded. *)
Ltac read_call :=
  unfold NearbySafePlaces.succeeded, NearbySafePlaces.failed;
  cbn [NearbySafePlaces.state NearbySafePlaces.searched
       NearbySafePlaces.delivered NearbySafePlaces.safePlaces
       NearbySafePlaces.searchRadius NearbySafePlaces.loading
       NearbySafePlaces.error NearbySafePlaces.zoneStatus
       NearbySafePlaces.setLoading NearbySafePlaces.setZoneStatus
       NearbySafePlaces.setSafePlaces NearbySafePlaces.setSearchRadius
       NearbySafePlaces.setError].

Section SearchLaws.
Variable getDistance : LatLng -> LatLng -> number.
Variable nearbySearch : LatLng -> Z -> string -> Response.

Let search := NearbySafePlaces.searchWithGoogleService getDistance nearbySearch.
Let contribution := NearbySafePlaces.contribution getDistance nearbySearch.
Let findNearbyPlaces :=
  NearbySafePlaces.findNearbyPlaces getDistance nearbySearch.

(** X1. With the maps library loaded, the promise of a search stays
    pending as long as fewer than 6 of the callbacks have run, and it
    resolves with the sorted, deduplicated results of the 6 requests that
    completed first once 6 or more have run. *)
Theorem search_settles_at_sixth_completion
    (completion : list Query) (location : LatLng) (radius : Z) :
  search true completion location radius
  = if (6 <=? List.length completion)%nat
    then Resolved
           (sort NearbySafePlaces.byDistance
              (NearbySafePlaces.uniquePlaces
                 (flat_map (contribution location radius)
                    (firstn 6 completion))))
    else Pending.
Proof.
  destruct (Nat.leb_spec 6 (List.length completion)) as [H | H].
  - apply (@search_resolved getDistance nearbySearch completion location radius).
    now rewrite totalSearches_value.
  - apply (@search_pending getDistance nearbySearch completion location radius).
    now rewrite totalSearches_value.
Qed.

Lemma uniquePlaces_keeps_identifiers (merged : list SafePlace)
    (place : SafePlace) :
  In place merged ->
  In (id place) (map id (NearbySafePlaces.uniquePlaces merged)).
Proof.
  intros Hin.
  destruct (uniquePlaces_first_occurrence merged) as [_ H].
  destruct (H place Hin) as [F _].
  pose proof (@find_sameId_In place merged Hin) as N. rewrite <- F in N.
  destruct (find (sameId place) (NearbySafePlaces.uniquePlaces merged))
    as [y |] eqn:E; [| congruence].
  apply find_some in E. destruct E as [Hy Ey].
  apply sameId_iff in Ey. rewrite <- Ey. now apply in_map.
Qed.

Lemma uniquePlaces_incl (merged : list SafePlace) (place : SafePlace) :
  In place (NearbySafePlaces.uniquePlaces merged) -> In place merged.
Proof.
  rewrite uniquePlaces_firstOccurrences. intros H.
  now apply firstOccurrences_In in H.
Qed.

(** X2. The list a search resolves with holds nothing but what the
    provider returned: each entry is the record built from a result that one
    of the first 6 completed requests received with status OK, typed with the
    category of that request. And nothing is lost but duplicates: the
    identifier of every such result is in the list. *)
Theorem resolved_places_are_provider_results
    (google : bool) (completion : list Query) (location : LatLng)
    (radius : Z) (value : list SafePlace) :
  search google completion location radius = Resolved value ->
  (forall place, In place value ->
     exists q found r,
       In q (firstn 6 completion)
       /\ results (nearbySearch location radius (keyword q)) = Some found
       /\ status (nearbySearch location radius (keyword q)) = OK
       /\ In r found
       /\ place = NearbySafePlaces.toSafePlace getDistance location
                    (query_type q) r)
  /\ (forall q found r,
        In q (firstn 6 completion) ->
        results (nearbySearch location radius (keyword q)) = Some found ->
        status (nearbySearch location radius (keyword q)) = OK ->
        In r found ->
        In (place_id r) (map id value)).
Proof.
  intros H.
  apply (@resolved_value getDistance nearbySearch) in H.
  change NearbySafePlaces.totalSearches with 6%nat in H.
  fold contribution in H. subst value. split.
  - intros place Hp.
    apply (Permutation_in _ (sort_Permutation _ _)) in Hp.
    apply uniquePlaces_incl in Hp.
    apply in_flat_map in Hp. destruct Hp as (q & Hq & Hp).
    unfold contribution, NearbySafePlaces.contribution in Hp.
    destruct (results (nearbySearch location radius (keyword q)))
      as [found |] eqn:R; [| contradiction].
    destruct (status (nearbySearch location radius (keyword q))) eqn:S;
      simpl in Hp; try contradiction.
    apply in_map_iff in Hp. destruct Hp as (r & <- & Hr).
    exists q, found, r. auto.
  - intros q found r Hq R S Hr.
    assert (Hin : In (NearbySafePlaces.toSafePlace getDistance location
                        (query_type q) r)
                     (flat_map (contribution location radius)
                        (firstn 6 completion))).
    { apply in_flat_map. exists q. split; [exact Hq |].
      unfold contribution, NearbySafePlaces.contribution.
      rewrite R, S. simpl. now apply in_map. }
    apply uniquePlaces_keeps_identifiers in Hin. simpl in Hin.
    eapply Permutation_in; [| exact Hin].
    apply Permutation_map. symmetry. apply sort_Permutation.
Qed.

(** X3. A call of [findNearbyPlaces] ends in one of two ways. Either it
    hands a list to [onNearestPlaceUpdate]: then loading is off, no error is
    set, the list has at most 8 entries, it is the list stored, and the zone
    status stored is the classifier's answer on it. Or it hands over
    nothing: then the stored list and zone status are those from before the
    call, and either the error is set or loading stays on. *)
Theorem call_delivers_or_leaves_places
    (userLocation : option LatLng) (env : NearbySafePlaces.Environment)
    (location : LatLng) (s : NearbySafePlaces.State) :
  let o := findNearbyPlaces userLocation env location s in
  let s' := NearbySafePlaces.state o in
  match NearbySafePlaces.delivered o with
  | Some out =>
      NearbySafePlaces.loading s' = false
      /\ NearbySafePlaces.error s' = None
      /\ (List.length out <= 8)%nat
      /\ NearbySafePlaces.safePlaces s' = out
      /\ NearbySafePlaces.zoneStatus s'
         = NearbySafePlaces.calculateZoneStatus userLocation out
  | None =>
      NearbySafePlaces.safePlaces s' = NearbySafePlaces.safePlaces s
      /\ NearbySafePlaces.zoneStatus s' = NearbySafePlaces.zoneStatus s
      /\ (NearbySafePlaces.error s' <> None
          \/ NearbySafePlaces.loading s' = true)
  end.
Proof.
  cbv zeta. unfold findNearbyPlaces, NearbySafePlaces.findNearbyPlaces.
  fold search.
  destruct (search (NearbySafePlaces.google env)
              (NearbySafePlaces.completion env 20000) location 20000)
    as [places | reason |].
  - destruct places as [| p t].
    + destruct (search (NearbySafePlaces.google env)
                  (NearbySafePlaces.completion env 50000) location 50000)
        as [places | reason |].
      * read_call. repeat split. apply firstn_le_length.
      * read_call. repeat split. left. discriminate.
      * read_call. repeat split. now right.
    + read_call. repeat split. apply firstn_le_length.
  - read_call. repeat split. left. discriminate.
  - read_call. repeat split. now right.
Qed.
End SearchLaws.

(* ================================================================== *)
(** ** More on the classifiers *)

Section ClassifierLaws.
Variable getDistanceKm : number -> number -> number -> number -> number.

Let checkSafetyZone := Dashboard.checkSafetyZone getDistanceKm.

(** The scan of [calculateZoneStatus] over measured places ends on a place
    of least distance. *)
Lemma nearest_fold (x : SafePlace) (t : list SafePlace) :
  Forall measured (x :: t) ->
  exists p q,
    fold_left NearbySafePlaces.scan (x :: t) (Infinity, None) = (Num q, Some p)
    /\ In p (x :: t) /\ distance p = Some (Num q) /\ ~ q == 0
    /\ forall p' q', In p' (x :: t) -> distance p' = Some (Num q') -> q <= q'.
Proof.
  intros Hall. inversion Hall as [| ? ? [qx [Hx Hnz]] Ht]; subst.
  destruct (scan_fold_min Ht x Hx) as (p & q & Hf & Hd & Hin & Hle & Hmin).
  exists p, q. split.
  - change (fold_left NearbySafePlaces.scan (x :: t) (Infinity, None))
      with (fold_left NearbySafePlaces.scan t
              (NearbySafePlaces.scan (Infinity, None) x)).
    replace (NearbySafePlaces.scan (Infinity, None) x) with (Num qx, Some x);
      [exact Hf |].
    unfold NearbySafePlaces.scan. rewrite Hx.
    apply truthy_Num in Hnz. now rewrite Hnz.
  - assert (Hp : In p (x :: t))
      by (destruct Hin as [-> | Hin]; [now left | now right]).
    repeat split; auto.
    + rewrite Forall_forall in Hall. destruct (Hall p Hp) as (q0 & E & N).
      rewrite Hd in E. now injection E as ->.
    + intros p' q' [<- | Hp'] Hq'; [| eauto].
      rewrite Hx in Hq'. now injection Hq' as <-.
Qed.

Lemma Qle_bool_scale (m q : Q) :
  Qle_bool (m / 1000) (q / 1000) = Qle_bool m q.
Proof.
  apply eq_true_iff_eq. rewrite !Qle_bool_iff.
  unfold Qdiv. split; intros H.
  - apply Qmult_le_r in H; [exact H | reflexivity].
  - apply Qmult_le_r; [reflexivity | exact H].
Qed.

(** Over measured places the scan of the page, in km, follows the scan of
    the component, in metres. *)
Lemma scans_agree_from (loc : LatLng) (l : list SafePlace) :
  Forall measured l ->
  forall (m : Q) (found : option SafePlace),
  fold_left (Dashboard.scan getDistanceKm loc) l (Num (m / 1000), found)
  = ((fst (fold_left NearbySafePlaces.scan l (Num m, found)) / Num 1000)%js,
     snd (fold_left NearbySafePlaces.scan l (Num m, found))).
Proof.
  induction 1 as [| x t [qx [Hx Hnz]] _ IH]; intros m found.
  - reflexivity.
  - simpl fold_left.
    assert (T : truthy (Num qx) = true) by now apply truthy_Num.
    assert (D : Dashboard.scan getDistanceKm loc (Num (m / 1000), found) x
                = if negb (Qle_bool m qx) then (Num (qx / 1000), Some x)
                  else (Num (m / 1000), found)).
    { unfold Dashboard.scan, Dashboard.distanceKm. rewrite Hx, T.
      rewrite js_div_1000. simpl fst. simpl JS.lt.
      now rewrite Qle_bool_scale. }
    assert (N : NearbySafePlaces.scan (Num m, found) x
                = if negb (Qle_bool m qx) then (Num qx, Some x)
                  else (Num m, found)).
    { unfold NearbySafePlaces.scan. rewrite Hx, T. reflexivity. }
    rewrite D, N. destruct (negb (Qle_bool m qx)); apply IH.
Qed.

Lemma scans_agree (loc : LatLng) (l : list SafePlace) :
  Forall measured l ->
  fold_left (Dashboard.scan getDistanceKm loc) l (Infinity, None)
  = ((fst (fold_left NearbySafePlaces.scan l (Infinity, None)) / Num 1000)%js,
     snd (fold_left NearbySafePlaces.scan l (Infinity, None))).
Proof.
  intros Hall. destruct Hall as [| x t [qx [Hx Hnz]] Ht]; [reflexivity |].
  simpl fold_left.
  assert (T : truthy (Num qx) = true) by now apply truthy_Num.
  replace (Dashboard.scan getDistanceKm loc (Infinity, None) x)
    with (Num (qx / 1000), Some x)
    by (unfold Dashboard.scan, Dashboard.distanceKm; now rewrite Hx, T).
  replace (NearbySafePlaces.scan (Infinity, None) x) with (Num qx, Some x)
    by (unfold NearbySafePlaces.scan; now rewrite Hx, T).
  now apply scans_agree_from.
Qed.

(** X7. On a list whose places all carry a non-zero numeric distance, the
    classifier of the page and the classifier of the component give the same
    zone and the same distance in km, whatever the location.  The place
    named is left out of the statement: the component compares metres, the
    page compares the quotients by 1000. *)
Theorem classifiers_agree_on_measured_places
    (userLocation : option LatLng) (places : list SafePlace) :
  Forall measured places ->
  let r := NearbySafePlaces.calculateZoneStatus userLocation places in
  let d := checkSafetyZone userLocation places in
  Dashboard.zone d = NearbySafePlaces.zone r
  /\ Dashboard.nearestDistance d = NearbySafePlaces.nearestDistance r.
Proof.
  intros Hall. cbv zeta.
  destruct userLocation as [loc |]; [| now repeat split].
  destruct places as [| x t]; [now repeat split |].
  unfold checkSafetyZone, Dashboard.checkSafetyZone,
    NearbySafePlaces.calculateZoneStatus.
  rewrite (scans_agree loc Hall).
  destruct (fold_left NearbySafePlaces.scan (x :: t) (Infinity, None))
    as [nd np].
  simpl fst. simpl snd. cbv zeta.
  destruct (nd / Num 1000 <=? Num 1)%js; [now repeat split |].
  destruct (nd / Num 1000 <=? Num 5)%js; now repeat split.
Qed.

(** X8. Once the zone shown by the page is green, orange or red, no update
    of the place list or of the location brings it back to unknown. *)
Theorem zone_never_returns_to_unknown
    (s : Dashboard.State) (updates : list Dashboard.Update) :
  Dashboard.zone (Dashboard.zoneStatus s) <> unknown ->
  Dashboard.zone
    (Dashboard.zoneStatus
       (fold_left (Dashboard.handle getDistanceKm) updates s)) <> unknown.
Proof.
  revert s. induction updates as [| u rest IH]; intros s Hs; [exact Hs |].
  simpl fold_left. apply IH.
  destruct u as [places | location]; unfold Dashboard.handle.
  - unfold Dashboard.handleNearestPlacesUpdate.
    destruct (Dashboard.userLocation s) as [loc |], places as [| p t];
      cbn [Dashboard.zoneStatus]; try exact Hs.
    pose proof (checkSafetyZone_present getDistanceKm loc p t) as H.
    cbv zeta in H.
    destruct H as [H | [H | H]]; rewrite H; discriminate.
  - unfold Dashboard.handleLocationChange.
    destruct (Dashboard.nearestSafePlaces s) as [| p t];
      cbn [Dashboard.zoneStatus]; try exact Hs.
    pose proof (checkSafetyZone_present getDistanceKm location p t) as H.
    cbv zeta in H.
    destruct H as [H | [H | H]]; rewrite H; discriminate.
Qed.
End ClassifierLaws.

(* ================================================================== *)
(** ** The circle on the map and the first entry of the list *)

Section CircleAndList.
Variable getDistance : LatLng -> LatLng -> number.
Variable getDistanceKm : number -> number -> number -> number -> number.
Variable nearbySearch : LatLng -> Z -> string -> Response.

Lemma green_iff_within_1000 (x : SafePlace) (t : list SafePlace) :
  Forall measured (x :: t) ->
  (fst (fold_left NearbySafePlaces.scan (x :: t) (Infinity, None)) / Num 1000
   <=? Num 1)%js = true
  <-> exists p q, In p (x :: t) /\ distance p = Some (Num q) /\ q <= 1000.
Proof.
  intros Hall.
  destruct (nearest_fold Hall) as (p & q & Hf & Hp & Hd & _ & Hmin).
  rewrite Hf. simpl fst. rewrite js_div_1000, js_le_Num.
  split.
  - intros H. exists p, q. repeat split; auto.
    assert (E : q == q / 1000 * 1000) by field.
    rewrite E. nra.
  - intros (p' & q' & Hp' & Hd' & Hq').
    pose proof (Hmin p' q' Hp' Hd') as L.
    apply Qle_shift_div_r; [reflexivity | lra].
Qed.

(** X9. When every place carries, as its distance, the non-zero number of
    metres that the map's own [getDistance] finds from the current location
    to the coordinates of the place, the circle on the map is drawn in green
    exactly when the zone the page computes at that location is green. *)
Theorem circle_green_iff_zone_green
    (currentLocation : LatLng) (safeZones : list SafePlace) :
  Forall (fun p =>
            measured p
            /\ distance p
               = Some (getDistance currentLocation
                         (mkLatLng (place_lat p) (place_lng p))))
         safeZones ->
  SafeZoneCircle.circle getDistance currentLocation safeZones
  = Some "#10B981"%string
  <-> Dashboard.zone
        (Dashboard.checkSafetyZone getDistanceKm (Some currentLocation)
           safeZones) = green.
Proof.
  intros Hall.
  assert (Hm : Forall measured safeZones)
    by (eapply Forall_impl; [| exact Hall]; now intros p [H _]).
  destruct safeZones as [| x t]; [split; discriminate |].
  assert (Z : Dashboard.zone
                (Dashboard.checkSafetyZone getDistanceKm (Some currentLocation)
                   (x :: t)) = green
              <-> (fst (fold_left NearbySafePlaces.scan (x :: t) (Infinity, None))
                   / Num 1000 <=? Num 1)%js = true).
  { unfold Dashboard.checkSafetyZone.
    rewrite (scans_agree getDistanceKm currentLocation Hm).
    destruct (fst (fold_left NearbySafePlaces.scan (x :: t) (Infinity, None))
              / Num 1000 <=? Num 1)%js; [now split |].
    destruct (fst (fold_left NearbySafePlaces.scan (x :: t) (Infinity, None))
              / Num 1000 <=? Num 5)%js; split; discriminate. }
  rewrite Z, (green_iff_within_1000 Hm).
  unfold SafeZoneCircle.circle.
  destruct (SafeZoneCircle.isInSafeZone getDistance currentLocation (x :: t))
    eqn:E; unfold SafeZoneCircle.isInSafeZone in E.
  - split; [intros _ | reflexivity].
    apply existsb_exists in E. destruct E as (p & Hp & Hle).
    rewrite Forall_forall in Hall. destruct (Hall p Hp) as [[q [Hd _]] Hg].
    rewrite Hd in Hg. injection Hg as Hg. rewrite <- Hg in Hle.
    apply js_le_Num in Hle. eauto.
  - split; [discriminate |].
    intros (p & q & Hp & Hd & Hq). exfalso.
    assert (existsb
              (fun zone =>
                 (getDistance currentLocation
                    (mkLatLng (place_lat zone) (place_lng zone))
                  <=? Num 1000)%js) (x :: t) = true); [| congruence].
    apply existsb_exists. exists p. split; [exact Hp |].
    rewrite Forall_forall in Hall. destruct (Hall p Hp) as [_ Hg].
    rewrite Hd in Hg. injection Hg as Hg. rewrite <- Hg.
    now apply js_le_Num.
Qed.

Lemma firstn_StronglySorted (A : Type) (R : A -> A -> Prop) (n : nat)
    (l : list A) :
  StronglySorted R l -> StronglySorted R (firstn n l).
Proof.
  intros H. revert n. induction H as [| x t Ht IH Hx]; intros n.
  - rewrite firstn_nil. constructor.
  - destruct n as [| n]; simpl; constructor; [apply IH |].
    rewrite Forall_forall in *. intros y Hy. apply Hx.
    rewrite <- (firstn_skipn n t). apply in_or_app. now left.
Qed.

(** In a list sorted by the comparator, the scan started on the first
    entry stays on it. *)
Lemma scan_keeps_first (x : SafePlace) (qx : Q) (t : list SafePlace) :
  distance x = Some (Num qx) -> ~ qx == 0 ->
  Forall measured t ->
  Forall (fun y => (or_zero (distance x) <=? or_zero (distance y))%js = true) t ->
  fold_left NearbySafePlaces.scan t (Num qx, Some x) = (Num qx, Some x).
Proof.
  intros Hx Hnz Hm Hle. induction Hm as [| y t [qy [Hy Hny]] Ht IH].
  - reflexivity.
  - inversion_clear Hle as [| ? ? Hxy Hrest].
    simpl fold_left.
    replace (NearbySafePlaces.scan (Num qx, Some x) y) with (Num qx, Some x);
      [now apply IH |].
    apply truthy_Num in Hnz. apply truthy_Num in Hny.
    rewrite Hx, Hy in Hxy. unfold or_zero in Hxy. rewrite Hnz, Hny in Hxy.
    apply js_le_Num, Qle_bool_iff in Hxy.
    unfold NearbySafePlaces.scan. rewrite Hy, Hny.
    cbn [fst andb JS.lt]. now rewrite Hxy.
Qed.

Lemma delivered_zoneStatus (userLocation : option LatLng)
    (env : NearbySafePlaces.Environment) (location : LatLng)
    (s : NearbySafePlaces.State) (out : list SafePlace) :
  NearbySafePlaces.delivered
    (NearbySafePlaces.findNearbyPlaces getDistance nearbySearch userLocation
       env location s) = Some out ->
  NearbySafePlaces.zoneStatus
    (NearbySafePlaces.state
       (NearbySafePlaces.findNearbyPlaces getDistance nearbySearch userLocation
          env location s))
  = NearbySafePlaces.calculateZoneStatus userLocation out.
Proof.
  unfold NearbySafePlaces.findNearbyPlaces.
  destruct (NearbySafePlaces.searchWithGoogleService getDistance nearbySearch
              (NearbySafePlaces.google env)
              (NearbySafePlaces.completion env 20000) location 20000)
    as [places | reason |]; try discriminate.
  destruct places as [| p t].
  - destruct (NearbySafePlaces.searchWithGoogleService getDistance nearbySearch
                (NearbySafePlaces.google env)
                (NearbySafePlaces.completion env 50000) location 50000)
      as [places | reason |]; try discriminate.
    read_call. now intros [= <-].
  - read_call. now intros [= <-].
Qed.

(** X4. When a call delivers a non-empty list whose places all carry a
    non-zero numeric distance, the nearest place of the zone status it
    stores is the first entry of the list, the one shown as Nearest, and the
    nearest distance is that entry's distance in km. *)
Theorem nearest_place_is_first_entry
    (loc : LatLng) (env : NearbySafePlaces.Environment) (location : LatLng)
    (s : NearbySafePlaces.State) (p : SafePlace) (rest : list SafePlace) :
  let o := NearbySafePlaces.findNearbyPlaces getDistance nearbySearch
             (Some loc) env location s in
  NearbySafePlaces.delivered o = Some (p :: rest) ->
  Forall measured (p :: rest) ->
  exists q,
    distance p = Some (Num q)
    /\ NearbySafePlaces.nearestPlace
         (NearbySafePlaces.zoneStatus (NearbySafePlaces.state o)) = Some p
    /\ NearbySafePlaces.nearestDistance
         (NearbySafePlaces.zoneStatus (NearbySafePlaces.state o))
       = Num (q / 1000).
Proof.
  cbv zeta. intros Hd Hm.
  rewrite (delivered_zoneStatus _ _ _ _ Hd).
  apply (@delivered_value getDistance nearbySearch) in Hd.
  destruct Hd as (radius & value & Hv & Hout).
  apply (@resolved_value getDistance nearbySearch) in Hv.
  assert (Hs : StronglySorted
                 (fun a b =>
                    (or_zero (distance a) <=? or_zero (distance b))%js = true)
                 (p :: rest)).
  { rewrite Hout, Hv. apply firstn_StronglySorted, sort_sorted. }
  inversion Hs as [| ? ? _ Hle]; subst.
  inversion Hm as [| ? ? [q [Hq Hnz]] Hrest]; subst.
  exists q. split; [exact Hq |].
  unfold NearbySafePlaces.calculateZoneStatus.
  change (fold_left NearbySafePlaces.scan (p :: rest) (Infinity, None))
    with (fold_left NearbySafePlaces.scan rest
            (NearbySafePlaces.scan (Infinity, None) p)).
  replace (NearbySafePlaces.scan (Infinity, None) p) with (Num q, Some p)
    by (unfold NearbySafePlaces.scan; rewrite Hq;
        apply truthy_Num in Hnz; now rewrite Hnz).
  rewrite (@scan_keeps_first p q rest Hq Hnz Hrest Hle). cbv zeta.
  destruct (Num q / Num 1000 <=? Num 1)%js; [now split |].
  destruct (Num q / Num 1000 <=? Num 5)%js; now split.
Qed.
End CircleAndList.

(* ================================================================== *)
(** ** The send-broadcast-message function *)

Section BroadcastLaws.
Variable toString : number -> string.
Variable trim : string -> string.
Variable htmlBody : string -> string -> option string -> string.
Variable toISOString : nat -> string.
Variable send : SendBroadcastMessage.Email -> SendBroadcastMessage.SendOutcome.

Let handler :=
  SendBroadcastMessage.handler toString trim htmlBody toISOString send.
Let emailTo := SendBroadcastMessage.emailTo toString trim htmlBody.
Let notify := SendBroadcastMessage.notify toString trim htmlBody send.

Lemma filter_filter (A : Type) (f g : A -> bool) (l : list A) :
  filter g (filter f l) = filter (fun x => f x && g x) l.
Proof.
  induction l as [| x t IH]; simpl; [reflexivity |].
  destruct (f x); simpl; [| exact IH].
  destruct (g x); now rewrite IH.
Qed.

Lemma filter_map_length (A B : Type) (f : A -> B) (g : B -> bool)
    (l : list A) :
  List.length (filter g (map f l))
  = List.length (filter (fun x => g (f x)) l).
Proof.
  induction l as [| x t IH]; simpl; [reflexivity |].
  destruct (g (f x)); simpl; now rewrite IH.
Qed.

Lemma filter_length_le (A : Type) (f : A -> bool) (l : list A) :
  (List.length (filter f l) <= List.length l)%nat.
Proof.
  induction l as [| x t IH]; simpl; [lia |].
  destruct (f x); simpl; lia.
Qed.

Lemma allNotifications_fields (profile : option SendBroadcastMessage.Profile)
    (request : SendBroadcastMessage.BroadcastRequest) :
  let notes :=
    SendBroadcastMessage.allNotifications toString trim toISOString profile
      request in
  List.length notes = List.length (SendBroadcastMessage.contacts request)
  /\ map SendBroadcastMessage.email_sent notes
     = map (fun contact =>
              SendBroadcastMessage.present (SendBroadcastMessage.email contact))
           (SendBroadcastMessage.contacts request).
Proof.
  cbv zeta. unfold SendBroadcastMessage.allNotifications.
  generalize 0%nat as start.
  induction (SendBroadcastMessage.contacts request) as [| c t IH];
    intros start; simpl; [now split |].
  destruct (IH (S start)) as [L M]. split; [now rewrite L | now rewrite M].
Qed.

(** X13. On a readable request, whatever the e-mail service does, the
    function answers 200 with a success body in which contacts_notified is
    the number of contacts of the request, with or without an address; there
    is one e-mail result per contact that has a non-empty address, in the
    order of the request, and one notification per contact; emails_sent is
    the number of contacts with an address whose own send returned. *)
Theorem broadcast_response_counts
    (method : string) (request : SendBroadcastMessage.BroadcastRequest)
    (profile : option SendBroadcastMessage.Profile) :
  String.eqb method "OPTIONS" = false ->
  exists description emails_sent results notes,
    handler method (SendBroadcastMessage.Valid request) profile
    = SendBroadcastMessage.mkHttpResponse 200
        (SendBroadcastMessage.Success description
           (List.length (SendBroadcastMessage.contacts request))
           emails_sent results notes)
    /\ map SendBroadcastMessage.result_contact_name results
       = map SendBroadcastMessage.contact_name
           (filter (fun contact =>
                      SendBroadcastMessage.present
                        (SendBroadcastMessage.email contact))
                   (SendBroadcastMessage.contacts request))
    /\ List.length notes = List.length (SendBroadcastMessage.contacts request)
    /\ emails_sent
       = List.length
           (filter
              (fun contact =>
                 SendBroadcastMessage.present (SendBroadcastMessage.email contact)
                 && match send (emailTo profile request
                                  (SendBroadcastMessage.nonNull
                                     (SendBroadcastMessage.email contact))) with
                    | SendBroadcastMessage.Returned _ => true
                    | SendBroadcastMessage.Thrown _ => false
                    end)
              (SendBroadcastMessage.contacts request))
    /\ (emails_sent <= List.length results
        <= List.length (SendBroadcastMessage.contacts request))%nat.
Proof.
  intros Hm. unfold handler, SendBroadcastMessage.handler. rewrite Hm.
  cbv zeta. do 4 eexists. split; [reflexivity |].
  unfold SendBroadcastMessage.emailResults. fold notify.
  split.
  { rewrite map_map. apply map_ext_in. intros c _.
    unfold notify, SendBroadcastMessage.notify.
    now destruct (send _). }
  split; [apply allNotifications_fields |].
  assert (E : forall c,
             SendBroadcastMessage.isSent (notify profile request c)
             = match send (emailTo profile request
                             (SendBroadcastMessage.nonNull
                                (SendBroadcastMessage.email c))) with
               | SendBroadcastMessage.Returned _ => true
               | SendBroadcastMessage.Thrown _ => false
               end).
  { intros c. unfold notify, SendBroadcastMessage.notify. fold emailTo.
    now destruct (send _). }
  split.
  - rewrite filter_map_length, filter_filter.
    f_equal. apply filter_ext. intros c. now rewrite E.
  - split; [apply filter_length_le |].
    rewrite length_map. apply filter_length_le.
Qed.

(** X14. When every send throws, a readable request is still answered 200
    with a success body: emails_sent is 0 and every e-mail result is failed,
    while the notifications mark email_sent for every contact that has an
    address. *)
Theorem broadcast_succeeds_when_every_send_fails
    (method : string) (request : SendBroadcastMessage.BroadcastRequest)
    (profile : option SendBroadcastMessage.Profile) :
  String.eqb method "OPTIONS" = false ->
  (forall mail, exists errorMessage,
     send mail = SendBroadcastMessage.Thrown errorMessage) ->
  exists description results notes,
    handler method (SendBroadcastMessage.Valid request) profile
    = SendBroadcastMessage.mkHttpResponse 200
        (SendBroadcastMessage.Success description
           (List.length (SendBroadcastMessage.contacts request)) 0
           results notes)
    /\ Forall (fun r =>
                 SendBroadcastMessage.status r = SendBroadcastMessage.failed)
              results
    /\ map SendBroadcastMessage.email_sent notes
       = map (fun contact =>
                SendBroadcastMessage.present (SendBroadcastMessage.email contact))
             (SendBroadcastMessage.contacts request).
Proof.
  intros Hm Hfail. unfold handler, SendBroadcastMessage.handler. rewrite Hm.
  cbv zeta.
  assert (F : Forall (fun r =>
                        SendBroadcastMessage.status r
                        = SendBroadcastMessage.failed)
                (SendBroadcastMessage.emailResults toString trim htmlBody send
                   profile request)).
  { unfold SendBroadcastMessage.emailResults. apply Forall_forall.
    intros r Hr. apply in_map_iff in Hr. destruct Hr as (c & <- & _).
    unfold SendBroadcastMessage.notify.
    destruct (Hfail (SendBroadcastMessage.emailTo toString trim htmlBody
                       profile request
                       (SendBroadcastMessage.nonNull
                          (SendBroadcastMessage.email c)))) as [m ->].
    reflexivity. }
  assert (Z : List.length
                (filter SendBroadcastMessage.isSent
                   (SendBroadcastMessage.emailResults toString trim htmlBody
                      send profile request)) = 0%nat).
  { induction F as [| r t Hr _ IH]; simpl; [reflexivity |].
    unfold SendBroadcastMessage.isSent at 1. now rewrite Hr. }
  rewrite Z. do 3 eexists. split; [reflexivity |].
  split; [exact F | apply allNotifications_fields].
Qed.
End BroadcastLaws.

(* ================================================================== *)
(** ** The laws on the sample data *)

(** The city provider: P2, returned under the keyword police, is in the
    resolved list. *)
Lemma resolved_places_are_provider_results_witness :
  NearbySafePlaces.searchWithGoogleService Sample.meridian Sample.city true
    NearbySafePlaces.dispatched Sample.here 20000 = Resolved Fixture.cityValue
  /\ In "P2"%string (map id Fixture.cityValue).
Proof.
  assert (H : NearbySafePlaces.searchWithGoogleService Sample.meridian
                Sample.city true NearbySafePlaces.dispatched Sample.here 20000
              = Resolved Fixture.cityValue) by reflexivity.
  split; [exact H |].
  apply (proj2 (@resolved_places_are_provider_results Sample.meridian
                  Sample.city true NearbySafePlaces.dispatched Sample.here
                  20000 Fixture.cityValue H)
           (mkQuery police "police") [Sample.P1; Sample.P2] Sample.P2).
  - simpl. tauto.
  - reflexivity.
  - reflexivity.
  - simpl. tauto.
Defined.

Lemma measured_sample (ident title : string) (ty : PlaceType) (meters : Q) :
  ~ meters == 0 ->
  measured (Sample.placeAt ident title ty (Some (Num meters))).
Proof. intros H. exists meters. now split. Qed.

(** The city provider: the list delivered starts with P1, and P1 is the
    nearest place of the zone status. *)
Lemma nearest_place_is_first_entry_witness :
  NearbySafePlaces.nearestPlace
    (NearbySafePlaces.zoneStatus
       (NearbySafePlaces.state
          (NearbySafePlaces.findNearbyPlaces Sample.meridian Sample.city
             (Some Sample.here) Sample.loaded Sample.here
             NearbySafePlaces.initial))) = Some Fixture.P1.
Proof.
  assert (M : Forall measured [Fixture.P1; Fixture.H1; Fixture.P2]).
  { repeat constructor; eexists; (split; [reflexivity |]);
      intros H; vm_compute in H; discriminate H. }
  destruct (@nearest_place_is_first_entry Sample.meridian Sample.city
              Sample.here Sample.loaded Sample.here NearbySafePlaces.initial
              Fixture.P1 [Fixture.H1; Fixture.P2] eq_refl M)
    as (q & _ & H & _).
  exact H.
Defined.

(** A clinic at 3200 m and a fire station at 500 m: the fire station is
    named, at 0.5 km. *)
Lemma calculateZoneStatus_nearest_witness :
  exists p q,
    In p [Sample.clinic; Sample.atMeters 500]
    /\ distance p = Some (Num q)
    /\ NearbySafePlaces.nearestPlace
         (NearbySafePlaces.calculateZoneStatus (Some Sample.here)
            [Sample.clinic; Sample.atMeters 500]) = Some p
    /\ NearbySafePlaces.nearestDistance
         (NearbySafePlaces.calculateZoneStatus (Some Sample.here)
            [Sample.clinic; Sample.atMeters 500]) = Num (q / 1000).
Proof.
  assert (M : Forall measured [Sample.clinic; Sample.atMeters 500]).
  { repeat constructor; apply measured_sample; intros H; discriminate H. }
  assert (N : [Sample.clinic; Sample.atMeters 500] <> []) by discriminate.
  destruct (@calculateZoneStatus_nearest Sample.here
              [Sample.clinic; Sample.atMeters 500] N M)
    as (p & q & Hp & Hd & Hn & Hk & _).
  exists p, q. auto.
Defined.

(** The same two places before the page's classifier. *)
Lemma checkSafetyZone_nearest_witness :
  exists p q,
    In p [Sample.clinic; Sample.atMeters 500]
    /\ Dashboard.nearestPlace
         (Dashboard.checkSafetyZone Sample.notCalled (Some Sample.here)
            [Sample.clinic; Sample.atMeters 500]) = Some p
    /\ Dashboard.nearestDistance
         (Dashboard.checkSafetyZone Sample.notCalled (Some Sample.here)
            [Sample.clinic; Sample.atMeters 500]) = Num q.
Proof.
  assert (M : Forall
                (fun p => exists q,
                   Dashboard.distanceKm Sample.notCalled Sample.here p = Num q)
                [Sample.clinic; Sample.atMeters 500]).
  { repeat constructor; eexists; reflexivity. }
  assert (N : [Sample.clinic; Sample.atMeters 500] <> []) by discriminate.
  destruct (@checkSafetyZone_nearest Sample.notCalled Sample.here
              [Sample.clinic; Sample.atMeters 500] N M)
    as (p & q & Hp & _ & Hn & Hk & _).
  exists p, q. auto.
Defined.

(** On the clinic and the fire station the two classifiers answer alike:
    green, at 0.5 km. *)
Lemma classifiers_agree_on_measured_places_witness :
  Dashboard.zone
    (Dashboard.checkSafetyZone Sample.notCalled (Some Sample.here)
       [Sample.clinic; Sample.atMeters 500])
  = NearbySafePlaces.zone
      (NearbySafePlaces.calculateZoneStatus (Some Sample.here)
         [Sample.clinic; Sample.atMeters 500])
  /\ Dashboard.nearestDistance
       (Dashboard.checkSafetyZone Sample.notCalled (Some Sample.here)
          [Sample.clinic; Sample.atMeters 500])
     = NearbySafePlaces.nearestDistance
         (NearbySafePlaces.calculateZoneStatus (Some Sample.here)
            [Sample.clinic; Sample.atMeters 500]).
Proof.
  assert (M : Forall measured [Sample.clinic; Sample.atMeters 500]).
  { repeat constructor; apply measured_sample; intros H; discriminate H. }
  exact (@classifiers_agree_on_measured_places Sample.notCalled
           (Some Sample.here) [Sample.clinic; Sample.atMeters 500] M).
Defined.

(** After the clinic made the zone orange, an empty list and a new location
    leave a zone that is not unknown. *)
Lemma zone_never_returns_to_unknown_witness :
  Dashboard.zone
    (Dashboard.zoneStatus
       (Dashboard.run Sample.notCalled
          [Dashboard.LocationChange Sample.here;
           Dashboard.NearestPlaces [Sample.clinic]])) = orange
  /\ Dashboard.zone
       (Dashboard.zoneStatus
          (fold_left (Dashboard.handle Sample.notCalled)
             [Dashboard.NearestPlaces [];
              Dashboard.LocationChange GoogleMap.defaultCenter]
             (Dashboard.run Sample.notCalled
                [Dashboard.LocationChange Sample.here;
                 Dashboard.NearestPlaces [Sample.clinic]]))) <> unknown.
Proof.
  split; [reflexivity |].
  apply (@zone_never_returns_to_unknown Sample.notCalled
           (Dashboard.run Sample.notCalled
              [Dashboard.LocationChange Sample.here;
               Dashboard.NearestPlaces [Sample.clinic]])
           [Dashboard.NearestPlaces [];
            Dashboard.LocationChange GoogleMap.defaultCenter]).
  discriminate.
Defined.

(** The three places of the city provider, measured along the meridian
    from Connaught Place: P1 is within 1000 m, the circle is green. *)
Lemma circle_green_iff_zone_green_witness :
  SafeZoneCircle.circle Sample.meridian Sample.here
    [Fixture.P1; Fixture.H1; Fixture.P2] = Some "#10B981"%string
  /\ Dashboard.zone
       (Dashboard.checkSafetyZone Sample.notCalled (Some Sample.here)
          [Fixture.P1; Fixture.H1; Fixture.P2]) = green.
Proof.
  assert (M : Forall
                (fun p =>
                   measured p
                   /\ distance p
                      = Some (Sample.meridian Sample.here
                                (mkLatLng (place_lat p) (place_lng p))))
                [Fixture.P1; Fixture.H1; Fixture.P2]).
  { repeat constructor; try reflexivity;
      eexists; (split; [reflexivity |]);
      intros H; vm_compute in H; discriminate H. }
  assert (G : Dashboard.zone
                (Dashboard.checkSafetyZone Sample.notCalled (Some Sample.here)
                   [Fixture.P1; Fixture.H1; Fixture.P2]) = green)
    by reflexivity.
  split; [| exact G].
  apply (proj2 (@circle_green_iff_zone_green Sample.meridian Sample.notCalled
                  Sample.here [Fixture.P1; Fixture.H1; Fixture.P2] M)).
  exact G.
Defined.

(** Three contacts, one without an address, and a service that accepts
    mail for the first only: three notified, two results, one sent. *)
Lemma broadcast_response_counts_witness :
  exists description results notes,
    SendBroadcastMessage.handler Fixture.toString Fixture.trim
      Fixture.htmlBody Fixture.toISOString Fixture.sendToAshaOnly
      "POST" (SendBroadcastMessage.Valid Fixture.request) None
    = SendBroadcastMessage.mkHttpResponse 200
        (SendBroadcastMessage.Success description 3 1 results notes)
    /\ List.length results = 2%nat.
Proof.
  destruct (@broadcast_response_counts Fixture.toString Fixture.trim
              Fixture.htmlBody Fixture.toISOString Fixture.sendToAshaOnly
              "POST" Fixture.request None eq_refl)
    as (description & n & results & notes & H & Hnames & _ & Hn & _).
  exists description, results, notes.
  assert (L : List.length results = 2%nat).
  { rewrite <- (length_map SendBroadcastMessage.result_contact_name), Hnames.
    reflexivity. }
  split; [| exact L].
  rewrite H, Hn. reflexivity.
Defined.

(** The same request with the service down: three notified, none sent. *)
Lemma broadcast_succeeds_when_every_send_fails_witness :
  exists description results notes,
    SendBroadcastMessage.handler Fixture.toString Fixture.trim
      Fixture.htmlBody Fixture.toISOString Fixture.sendNothing
      "POST" (SendBroadcastMessage.Valid Fixture.request) None
    = SendBroadcastMessage.mkHttpResponse 200
        (SendBroadcastMessage.Success description 3 0 results notes)
    /\ map SendBroadcastMessage.email_sent notes = [true; false; true].
Proof.
  destruct (@broadcast_succeeds_when_every_send_fails Fixture.toString
              Fixture.trim Fixture.htmlBody Fixture.toISOString
              Fixture.sendNothing "POST" Fixture.request None eq_refl
              (fun mail => ex_intro _ (Some "service unavailable"%string)
                             eq_refl))
    as (description & results & notes & H & _ & Hs).
  exists description, results, notes. split; [exact H | exact Hs].
Defined.

(* ================================================================== *)
(** ** The broadcast form and the function behind it *)

Section BroadcastForm.
Variable toString : number -> string.
Variable trim : string -> string.
Variable htmlBody : string -> string -> option string -> string.
Variable toISOString : nat -> string.
Variable send : SendBroadcastMessage.Email -> SendBroadcastMessage.SendOutcome.

Let handleSendBroadcast :=
  BroadcastMessaging.handleSendBroadcast toString trim.
Let handler :=
  SendBroadcastMessage.handler toString trim htmlBody toISOString send.

(** X15. A call of [handleSendBroadcast] invokes the function at most
    once. With a blank message or no contacts it invokes nothing, shows one
    error toast and leaves the form as it was. Otherwise the sending flag is
    off at the end, and the form is either cleared and closed, which happens
    only when a request was invoked and came back without error, or keeps the
    typed message, subject and location choice for another try. *)
Theorem broadcast_form_outcomes
    (env : BroadcastMessaging.Environment) (s : BroadcastMessaging.State) :
  let o := handleSendBroadcast env s in
  let s' := BroadcastMessaging.state o in
  (List.length (BroadcastMessaging.invoked o) <= 1)%nat
  /\ (truthy_string (trim (BroadcastMessaging.message s)) = false
      \/ BroadcastMessaging.contacts s = [] ->
      BroadcastMessaging.invoked o = [] /\ s' = s
      /\ exists text, BroadcastMessaging.toasts o = [mkToast "Error" text true])
  /\ (truthy_string (trim (BroadcastMessaging.message s)) = true ->
      BroadcastMessaging.contacts s <> [] ->
      BroadcastMessaging.sending s' = false
      /\ BroadcastMessaging.contacts s' = BroadcastMessaging.contacts s
      /\ ((exists request,
             BroadcastMessaging.invoked o = [request]
             /\ BroadcastMessaging.invoke env request = None
             /\ BroadcastMessaging.message s' = EmptyString
             /\ BroadcastMessaging.subject s' = EmptyString
             /\ BroadcastMessaging.includeLocation s' = false
             /\ BroadcastMessaging.isDialogOpen s' = false)
          \/ (BroadcastMessaging.message s' = BroadcastMessaging.message s
              /\ BroadcastMessaging.subject s' = BroadcastMessaging.subject s
              /\ BroadcastMessaging.includeLocation s'
                 = BroadcastMessaging.includeLocation s
              /\ BroadcastMessaging.isDialogOpen s'
                 = BroadcastMessaging.isDialogOpen s
              /\ forall request,
                   In request (BroadcastMessaging.invoked o) ->
                   BroadcastMessaging.invoke env request <> None))).
Proof.
  cbv zeta. unfold handleSendBroadcast, BroadcastMessaging.handleSendBroadcast.
  destruct (truthy_string (trim (BroadcastMessaging.message s))) eqn:T;
    simpl negb; cbv iota.
  - destruct (BroadcastMessaging.contacts s) as [| c t] eqn:C.
    + cbn [BroadcastMessaging.invoked BroadcastMessaging.state
           BroadcastMessaging.toasts List.length].
      split; [lia |]. split; [| congruence].
      intros _. split; [reflexivity |]. split; [reflexivity | eauto].
    + destruct (BroadcastMessaging.user env) as [uid |].
      * destruct (BroadcastMessaging.invoke env
                    (BroadcastMessaging.body toString uid env s)) eqn:I.
        -- cbn [BroadcastMessaging.invoked BroadcastMessaging.state
                BroadcastMessaging.toasts List.length].
           split; [lia |]. split; [intros [H | H]; discriminate H |].
           intros _ _. split; [reflexivity |]. split; [exact C |].
           right. repeat split.
           intros request [<- | []]. congruence.
        -- cbn [BroadcastMessaging.invoked BroadcastMessaging.state
                BroadcastMessaging.toasts List.length].
           split; [lia |]. split; [intros [H | H]; discriminate H |].
           intros _ _. split; [reflexivity |]. split; [exact C |].
           left. exists (BroadcastMessaging.body toString uid env s).
           repeat split. exact I.
      * cbn [BroadcastMessaging.invoked BroadcastMessaging.state
             BroadcastMessaging.toasts List.length].
        split; [lia |]. split; [intros [H | H]; discriminate H |].
        intros _ _. split; [reflexivity |]. split; [exact C |].
        right. repeat split. intros request [].
  - cbn [BroadcastMessaging.invoked BroadcastMessaging.state
         BroadcastMessaging.toasts List.length].
    split; [lia |]. split; [| congruence].
    intros _. split; [reflexivity |]. split; [reflexivity | eauto].
Qed.

(** X16. When [invoke] runs the function itself, a signed-in user with a
    non-blank message and at least one contact always gets the toast
    Message Sent and a cleared form, whatever the e-mail service does: the
    function answers 200 with the same sentence as the toast, counting every
    contact, and emails_sent may be anything from 0 up. *)
Theorem broadcast_reports_success_whatever_the_mail_service_does
    (profile : option SendBroadcastMessage.Profile) (uid : string)
    (env : BroadcastMessaging.Environment) (s : BroadcastMessaging.State) :
  (forall request,
     BroadcastMessaging.invoke env request
     = BroadcastMessaging.errorOf
         (handler "POST" (SendBroadcastMessage.Valid request) profile)) ->
  BroadcastMessaging.user env = Some uid ->
  truthy_string (trim (BroadcastMessaging.message s)) = true ->
  BroadcastMessaging.contacts s <> [] ->
  let o := handleSendBroadcast env s in
  let sentence :=
    ("Broadcast sent to "
     ++ SendBroadcastMessage.decimal
          (List.length (BroadcastMessaging.contacts s))
     ++ " contacts")%string in
  BroadcastMessaging.toasts o = [mkToast "Message Sent" sentence false]
  /\ BroadcastMessaging.state o
     = BroadcastMessaging.mkState false EmptyString EmptyString false
         (BroadcastMessaging.contacts s) false
  /\ exists request emails_sent results notes,
       BroadcastMessaging.invoked o = [request]
       /\ handler "POST" (SendBroadcastMessage.Valid request) profile
          = SendBroadcastMessage.mkHttpResponse 200
              (SendBroadcastMessage.Success sentence
                 (List.length (BroadcastMessaging.contacts s))
                 emails_sent results notes).
Proof.
  intros Hinvoke Hu Ht Hc. cbv zeta.
  unfold handleSendBroadcast, BroadcastMessaging.handleSendBroadcast.
  rewrite Ht, Hu. simpl negb. cbv iota.
  destruct (BroadcastMessaging.contacts s) as [| c t] eqn:C; [congruence |].
  assert (R : SendBroadcastMessage.contacts
                (BroadcastMessaging.body toString uid env s) = c :: t).
  { unfold BroadcastMessaging.body.
    destruct (BroadcastMessaging.located toString env s) as [[m la] lo].
    simpl. exact C. }
  rewrite Hinvoke.
  unfold handler at 1, SendBroadcastMessage.handler. simpl String.eqb.
  cbv iota zeta.
  unfold BroadcastMessaging.errorOf.
  cbn [SendBroadcastMessage.http_status Z.leb Z.ltb Z.compare Pos.compare
       Pos.compare_cont andb BroadcastMessaging.toasts
       BroadcastMessaging.state BroadcastMessaging.invoked].
  split; [reflexivity |].
  split; [unfold BroadcastMessaging.setSending, BroadcastMessaging.reset;
          cbn [BroadcastMessaging.contacts]; now rewrite C |].
  do 4 eexists. split; [reflexivity |].
  unfold handler, SendBroadcastMessage.handler. simpl String.eqb.
  cbv iota zeta. rewrite R. reflexivity.
Qed.

(** X17. With the location included and a position found, the message
    typed goes out with the maps link appended by the form; the text the
    function mails carries that link and, when both coordinates are non-zero
    numbers, the same link a second time under Current Location. When a
    coordinate is 0 the function adds no second link. *)
Theorem broadcast_text_carries_the_link
    (profile : option SendBroadcastMessage.Profile) (uid : string)
    (env : BroadcastMessaging.Environment) (s : BroadcastMessaging.State)
    (la lo : number) :
  BroadcastMessaging.includeLocation s = true ->
  BroadcastMessaging.position env = BroadcastMessaging.Resolves la lo ->
  let nl := SendBroadcastMessage.newline in
  let url :=
    ("https://maps.google.com/maps?q=" ++ toString la ++ "," ++ toString lo)%string in
  let typed :=
    (BroadcastMessaging.message s ++ nl ++ nl
     ++ "📍 My current location: " ++ url)%string in
  let opening :=
    ("Message from " ++ SendBroadcastMessage.userName trim profile ++ ":"
     ++ nl ++ nl ++ typed)%string in
  let closing := (nl ++ nl ++ "Sent via WomenSafe India app")%string in
  let text :=
    SendBroadcastMessage.emailMessage toString trim profile
      (BroadcastMessaging.body toString uid env s) in
  SendBroadcastMessage.message (BroadcastMessaging.body toString uid env s)
  = typed
  /\ (truthy la && truthy lo = true ->
      text = (opening ++ (nl ++ nl ++ "📍 Current Location: " ++ url)
              ++ closing)%string)
  /\ (truthy la && truthy lo = false -> text = (opening ++ closing)%string).
Proof.
  intros Hi Hp. cbv zeta.
  unfold BroadcastMessaging.body, BroadcastMessaging.located.
  rewrite Hi, Hp.
  unfold SendBroadcastMessage.emailMessage, SendBroadcastMessage.locationUrl.
  cbn [SendBroadcastMessage.message SendBroadcastMessage.latitude
       SendBroadcastMessage.longitude].
  split; [reflexivity |].
  split; intros H; rewrite H; reflexivity.
Qed.
End BroadcastForm.

(* ================================================================== *)
(** ** The SOS button *)

(** X18. With a user signed in, pressing SOS sends at most one
    notification. Nothing is sent when [navigator.geolocation] is missing,
    where the failure toast is shown, or when the position request is never
    answered, where nothing is shown. A position error sends the
    notification without coordinates and shows SOS Activated whatever the
    function returned. A failure of the function after a position was found
    shows no toast; the failure toast appears only for the missing
    geolocation. *)
Theorem sos_sends_and_reports
    (toString : number -> string) (invoke : SOS.Notification -> SOS.Invoked)
    (uid : string) (geolocation : SOS.Geolocation) :
  let o := SOS.handleSOS toString invoke (Some uid) geolocation in
  let failure :=
    mkToast "Error"
      "Failed to activate SOS. Please call emergency services directly." true in
  (List.length (SOS.invoked o) <= 1)%nat
  /\ (SOS.invoked o = []
      <-> geolocation = SOS.Missing \/ geolocation = SOS.Unanswered)
  /\ (In failure (SOS.toasts o) <-> geolocation = SOS.Missing)
  /\ (geolocation = SOS.PositionError ->
      exists request text,
        SOS.invoked o = [request]
        /\ SOS.latitude request = None /\ SOS.longitude request = None
        /\ SOS.toasts o = [mkToast "SOS Activated" text true])
  /\ (forall request,
        In request (SOS.invoked o) ->
        SOS.latitude request <> None ->
        SOS.error (invoke request) <> None ->
        SOS.toasts o = []).
Proof.
  cbv zeta. destruct geolocation as [| la lo | |]; cbn [SOS.handleSOS].
  2: destruct (SOS.error
                 (invoke
                    (SOS.mkNotification uid (Some la) (Some lo)
                       "Emergency SOS activated! I need immediate help.")))
       eqn:E.
  all: cbn [SOS.invoked SOS.toasts List.length In SOS.latitude SOS.longitude].
  all: repeat match goal with
              | |- _ /\ _ => split
              | |- _ <-> _ => split
              end.
  all: try lia.
  all: try (intros H; discriminate H).
  all: try (intros [H | H]; discriminate H).
  all: try (intros [H | []]; discriminate H).
  all: try (intros []; fail).
  all: try (intros _; now left).
  all: try (intros _; now right).
  all: try reflexivity.
  all: try (intros _; do 2 eexists; repeat split; fail).
  all: try (intros request [<- | []]; cbn [SOS.latitude]; congruence).
  all: try (intros request []).
Qed.

(** The filled-in form, a signed-in user and a function whose e-mail
    service is down: the toast still reads Message Sent, for 3 contacts. *)
Lemma broadcast_reports_success_witness :
  BroadcastMessaging.toasts
    (BroadcastMessaging.handleSendBroadcast Fixture.toString Fixture.trim
       Fixture.online Fixture.form)
  = [mkToast "Message Sent" "Broadcast sent to 3 contacts" false].
Proof.
  destruct (@broadcast_reports_success_whatever_the_mail_service_does
              Fixture.toString Fixture.trim Fixture.htmlBody
              Fixture.toISOString Fixture.sendNothing None "u1"
              Fixture.online Fixture.form
              (fun request => eq_refl) eq_refl eq_refl)
    as (H & _).
  - discriminate.
  - exact H.
Defined.

(** The same form and user: the message invoked ends with the maps link. *)
Lemma broadcast_text_carries_the_link_witness :
  SendBroadcastMessage.message
    (BroadcastMessaging.body Fixture.toString "u1" Fixture.online Fixture.form)
  = ("All fine." ++ SendBroadcastMessage.newline ++ SendBroadcastMessage.newline
     ++ "📍 My current location: https://maps.google.com/maps?q=28.6315,77.2167")%string.
Proof.
  destruct (@broadcast_text_carries_the_link Fixture.toString Fixture.trim
              None "u1" Fixture.online Fixture.form
              (lat Sample.here) (lng Sample.here) eq_refl eq_refl)
    as (H & _).
  exact H.
Defined.
